(** * Routine Grid API: habits, habit entries and the data export

    A shallow embedding of [apps/habits/models.py], [apps/habits/serializers.py],
    [apps/habits/views.py] and of [export_user_data] in [apps/users/views.py].

    The database is two tables keyed by primary key ([gmap nat _]) plus the
    auto-increment counters.  Every request handler runs in a small
    state-and-error monad over the database: the exceptions the handlers raise
    ([Http404], [PermissionDenied], [ValidationError], [IntegrityError]) are
    the error side, and the dispatcher [run] turns them into responses the way
    the framework's exception handler does.

    Modelling choices:
    - timestamps and calendar dates are naturals (seconds, day numbers); the
      current time is part of the request;
    - strings are Rocq strings of ASCII characters, so [len] is
      [String.length] and [str.lower] / [str.strip] act on ASCII characters;
    - query parameters of the entry list arrive decoded: [habit_id] is [None]
      both when absent and when [int()] fails, since the code then skips the
      filter;
    - a request payload gives, per writable field, [None] when the key is
      absent and [Some v] when present ([Some None] for JSON null on nullable
      fields). *)

From stdpp Require Import base gmap list sorting strings.
From Stdlib Require Import ZArith Ascii String Lia.

Open Scope string_scope.
Open Scope nat_scope.

(* ------------------------------------------------------------------ *)
(** ** Models ([apps/habits/models.py]) *)

Inductive HabitType := SINGULAR | TIMED.

#[global] Instance HabitType_eq_dec : EqDecision HabitType.
Proof. solve_decision. Defined.

Module Habit.
Record t := mk {
  user : nat;
  name : string;
  description : option string;
  type : HabitType;
  created_at : nat;
  updated_at : nat;
  archived_at : option nat;
  color : option string;
  goal_value : option nat;
  goal_unit : option string
}.
End Habit.

Module HabitEntry.
Record t := mk {
  habit : nat;
  user : nat;
  entry_date : nat;
  value : Z;
  notes : option string;
  created_at : nat;
  updated_at : nat
}.
End HabitEntry.

(** The database: both tables and their auto-increment counters. *)
Record db := DB {
  habits : gmap nat Habit.t;
  entries : gmap nat HabitEntry.t;
  next_habit_id : nat;
  next_entry_id : nat
}.

Definition set_habits (m : gmap nat Habit.t) (s : db) : db :=
  DB m (entries s) (next_habit_id s) (next_entry_id s).
Definition set_entries (m : gmap nat HabitEntry.t) (s : db) : db :=
  DB (habits s) m (next_habit_id s) (next_entry_id s).

(** The authenticated request: caller id and [timezone.now()]. *)
Record request := Request { req_user : nat; now : nat }.

(* ------------------------------------------------------------------ *)
(** ** Errors, responses and the handler monad *)

Definition error_dict := list (string * string).

Inductive api_error :=
  | NotFound                         (* Http404 from get_object *)
  | PermissionDenied                 (* has_object_permission is False *)
  | ValidationError (errs : error_dict)
  | IntegrityError.                  (* a database constraint rejected a write *)

Inductive body :=
  | BNone
  | BDetail (msg : string)
  | BErrors (errs : error_dict)
  | BHabit (pk : nat) (h : Habit.t)
  | BHabits (hs : list (nat * Habit.t))
  | BEntry (pk : nat) (e : HabitEntry.t)
  | BEntries (es : list (nat * HabitEntry.t))
  | BExport (format : string) (hs : list (nat * Habit.t))
            (es : list (nat * HabitEntry.t)).

Record response := Response { status : nat; rbody : body }.

Definition M (A : Type) := db -> db * (api_error + A).

Definition ret {A} (a : A) : M A := fun s => (s, inr a).
Definition bind {A B} (m : M A) (k : A -> M B) : M B :=
  fun s => match m s with
           | (s', inl e) => (s', inl e)
           | (s', inr a) => k a s'
           end.
Definition raise {A} (e : api_error) : M A := fun s => (s, inl e).
Definition get_db : M db := fun s => (s, inr s).
Definition put_db (s' : db) : M unit := fun _ => (s', inr tt).

Notation "x <- m ;; k" := (bind m (fun x => k))
  (at level 100, m at next level, right associativity).

(** Lift a pure validation result into the handler. *)
Definition liftV {A} (r : error_dict + A) : M A :=
  match r with inl es => raise (ValidationError es) | inr a => ret a end.

(** The framework's exception handler. *)
Definition error_response (e : api_error) : response :=
  match e with
  | NotFound => Response 404 (BDetail "No Habit matches the given query.")
  | PermissionDenied =>
      Response 403 (BDetail "You do not have permission to perform this action.")
  | ValidationError es => Response 400 (BErrors es)
  | IntegrityError => Response 500 BNone
  end.

(* ------------------------------------------------------------------ *)
(** ** Python string helpers ([str.lower], [str.strip], [len]) *)

Definition ascii_lower (c : ascii) : ascii :=
  let n := nat_of_ascii c in
  if (65 <=? n) && (n <=? 90) then ascii_of_nat (n + 32) else c.

Fixpoint py_lower (s : string) : string :=
  match s with
  | EmptyString => EmptyString
  | String c s' => String (ascii_lower c) (py_lower s')
  end.

(** [str.isspace] on ASCII: \t \n \x0b \x0c \r, \x1c-\x1f and space. *)
Definition py_isspace (c : ascii) : bool :=
  let n := nat_of_ascii c in
  ((9 <=? n) && (n <=? 13)) || ((28 <=? n) && (n <=? 32)).

Fixpoint py_lstrip (s : string) : string :=
  match s with
  | EmptyString => EmptyString
  | String c s' => if py_isspace c then py_lstrip s' else s
  end.

Definition py_rstrip (s : string) : string :=
  string_of_list_ascii
    (rev (list_ascii_of_string
            (py_lstrip (string_of_list_ascii
                          (rev (list_ascii_of_string s)))))).

Definition py_strip (s : string) : string := py_rstrip (py_lstrip s).

Fixpoint py_in (s : string) (l : list string) : bool :=
  match l with
  | [] => false
  | x :: l' => String.eqb s x || py_in s l'
  end.

(* ------------------------------------------------------------------ *)
(** ** Serializer fields (the framework's field classes) *)

Definition msg_required := "This field is required.".
Definition msg_blank := "This field may not be blank.".
Definition msg_max_length := "Ensure this field has no more than N characters.".
Definition msg_min_value := "Ensure this value is greater than or equal to 0.".
Definition msg_max_value :=
  "Ensure this value is less than or equal to 2147483647.".
Definition msg_invalid_choice := "is not a valid choice.".
Definition msg_does_not_exist := "Invalid pk - object does not exist.".

(** One field of [Serializer.to_internal_value]: an absent key is an error
    only when the field is required (and the update is not partial); a present
    value goes through the field's own validation. *)
Definition field_check {A B} (key : string) (required : bool) (v : option A)
    (f : A -> string + B) : error_dict * option B :=
  match v with
  | None => if required then ([(key, msg_required)], None) else ([], None)
  | Some a =>
      match f a with
      | inl m => ([(key, m)], None)
      | inr b => ([], Some b)
      end
  end.

(** A nullable [CharField(max_length=n, allow_blank=True, allow_null=True)]. *)
Definition char_field_opt (n : nat) (v : option string) : string + option string :=
  match v with
  | None => inr None
  | Some s => let s' := py_strip s in
              if n <? String.length s' then inl msg_max_length else inr (Some s')
  end.

(** [IntegerField(min_value=0, max_value=2147483647)], as generated for a
    [PositiveIntegerField]. *)
Definition positive_integer_field (v : Z) : string + Z :=
  if (v <? 0)%Z then inl msg_min_value
  else if (2147483647 <? v)%Z then inl msg_max_value
  else inr v.

(* ------------------------------------------------------------------ *)
(** ** [HabitSerializer] *)

Record habit_payload := HabitPayload {
  p_name : option string;
  p_description : option (option string);
  p_type : option string;
  p_archived_at : option (option nat);
  p_color : option (option string);
  p_goal_value : option (option Z);
  p_goal_unit : option (option string)
}.

Definition empty_habit_payload : habit_payload :=
  HabitPayload None None None None None None None.

(** Validated data: only the keys that were supplied. *)
Record habit_data := HabitData {
  d_name : option string;
  d_description : option (option string);
  d_type : option HabitType;
  d_archived_at : option (option nat);
  d_color : option (option string);
  d_goal_value : option (option nat);
  d_goal_unit : option (option string)
}.

(** [HabitSerializer.validate_name]. *)
Definition validate_name (value : string) : string + string :=
  if String.eqb value "" then inl "Name is required."
  else if String.length value <? 3 then inl "Name must be at least 3 characters long."
  else inr value.

(** The [name] field: [CharField(max_length=100)] (whitespace trimmed, blank
    refused), then [validate_name]. *)
Definition name_field (raw : string) : string + string :=
  let v := py_strip raw in
  if String.eqb v "" then inl msg_blank
  else if 100 <? String.length v then inl msg_max_length
  else validate_name v.

(** The [type] field: a [ChoiceField] over [HabitType.choices]. *)
Definition type_field (s : string) : string + HabitType :=
  if String.eqb s "singular" then inr SINGULAR
  else if String.eqb s "timed" then inr TIMED
  else inl msg_invalid_choice.

Definition goal_value_field (v : option Z) : string + option nat :=
  match v with
  | None => inr None
  | Some z => match positive_integer_field z with
              | inl m => inl m
              | inr z' => inr (Some (Z.to_nat z'))
              end
  end.

(** [HabitSerializer.run_validation]: the fields in declaration order
    ([user], [created_at], [updated_at] are read-only). *)
Definition habit_to_internal_value (partial : bool) (p : habit_payload)
    : error_dict + habit_data :=
  let '(e1, nm) := field_check "name" (negb partial) (p_name p) name_field in
  let '(e2, ds) := field_check "description" false (p_description p)
                     (fun d => inr (option_map py_strip d)) in
  let '(e3, ty) := field_check "type" false (p_type p) type_field in
  let '(e4, ar) := field_check "archived_at" false (p_archived_at p)
                     (fun a => inr a) in
  let '(e5, co) := field_check "color" false (p_color p) (char_field_opt 7) in
  let '(e6, gv) := field_check "goal_value" false (p_goal_value p)
                     goal_value_field in
  let '(e7, gu) := field_check "goal_unit" false (p_goal_unit p)
                     (char_field_opt 10) in
  match (e1 ++ e2 ++ e3 ++ e4 ++ e5 ++ e6 ++ e7)%list with
  | [] => inr (HabitData nm ds ty ar co gv gu)
  | es => inl es
  end.

Definition upd {A} (o : option A) (old : A) : A :=
  match o with Some a => a | None => old end.

(** [ModelSerializer.update]: [setattr] for each validated key, then [save()]
    ([auto_now] refreshes [updated_at]). *)
Definition habit_apply (d : habit_data) (t : nat) (h : Habit.t) : Habit.t :=
  Habit.mk (Habit.user h) (upd (d_name d) (Habit.name h))
    (upd (d_description d) (Habit.description h))
    (upd (d_type d) (Habit.type h)) (Habit.created_at h) t
    (upd (d_archived_at d) (Habit.archived_at h))
    (upd (d_color d) (Habit.color h))
    (upd (d_goal_value d) (Habit.goal_value h))
    (upd (d_goal_unit d) (Habit.goal_unit h)).

(** [ModelSerializer.create] after [serializer.save(user=request.user)]:
    [Habit.objects.create(user=..., **validated_data)] with the model's
    defaults for the keys not supplied. *)
Definition habit_new (u t : nat) (d : habit_data) : Habit.t :=
  Habit.mk u (upd (d_name d) "") (upd (d_description d) None)
    (upd (d_type d) SINGULAR) t t (upd (d_archived_at d) None)
    (upd (d_color d) None) (upd (d_goal_value d) None)
    (upd (d_goal_unit d) None).

(* ------------------------------------------------------------------ *)
(** ** [HabitEntrySerializer] *)

Record entry_payload := EntryPayload {
  ep_habit : option nat;
  ep_entry_date : option nat;
  ep_value : option Z;
  ep_notes : option (option string)
}.

Record entry_data := EntryData {
  ed_habit : option (nat * Habit.t);
  ed_entry_date : option nat;
  ed_value : option Z;
  ed_notes : option (option string)
}.

Definition msg_own_habit := "You can only create entries for your own habits.".
Definition msg_archived_habit := "Cannot create entries for archived habits.".
Definition msg_singular := "Value for singular habits must be 1.".
Definition msg_timed := "Value for timed habits must be greater than 0.".
Definition msg_unique := "The fields habit, entry_date must make a unique set.".

(** [HabitEntrySerializer.validate_habit]. *)
Definition validate_habit (req : request) (h : Habit.t) : string + Habit.t :=
  if negb (Habit.user h =? req_user req) then inl msg_own_habit
  else match Habit.archived_at h with
       | Some _ => inl msg_archived_habit
       | None => inr h
       end.

(** The [habit] field: [PrimaryKeyRelatedField(queryset=Habit.objects.all())]
    resolves the key against every habit of every user, then
    [validate_habit] runs. *)
Definition habit_field (req : request) (s : db) (hid : nat)
    : string + (nat * Habit.t) :=
  match habits s !! hid with
  | None => inl msg_does_not_exist
  | Some h => match validate_habit req h with
              | inl m => inl m
              | inr h' => inr (hid, h')
              end
  end.

Definition entry_fields (req : request) (s : db) (partial : bool)
    (p : entry_payload) : error_dict + entry_data :=
  let '(e1, hb) := field_check "habit" (negb partial) (ep_habit p)
                     (habit_field req s) in
  let '(e2, dt) := field_check "entry_date" (negb partial) (ep_entry_date p)
                     (fun d => inr d) in
  let '(e3, vl) := field_check "value" false (ep_value p)
                     positive_integer_field in
  let '(e4, nt) := field_check "notes" false (ep_notes p)
                     (fun n => inr (option_map py_strip n)) in
  match (e1 ++ e2 ++ e3 ++ e4)%list with
  | [] => inr (EntryData hb dt vl nt)
  | es => inl es
  end.

Definition is_self (self : option nat) (i : nat) : bool :=
  match self with Some j => j =? i | None => false end.

(** [UniqueTogetherValidator(habit, entry_date)]: whether a row other than
    the instance being updated already has this (habit, entry_date). *)
Definition entry_taken (s : db) (self : option nat) (hid d : nat) : bool :=
  existsb (fun ie => negb (is_self self ie.1)
                     && (HabitEntry.habit ie.2 =? hid)
                     && (HabitEntry.entry_date ie.2 =? d))
          (map_to_list (entries s)).

(** The validator reads missing keys from the instance on an update, and is
    skipped when a value is still missing. *)
Definition unique_together (s : db) (inst : option (nat * HabitEntry.t))
    (d : entry_data) : error_dict + entry_data :=
  let hid := match ed_habit d with
             | Some (i, _) => Some i
             | None => option_map (fun ie => HabitEntry.habit ie.2) inst
             end in
  let dt := match ed_entry_date d with
            | Some x => Some x
            | None => option_map (fun ie => HabitEntry.entry_date ie.2) inst
            end in
  match hid, dt with
  | Some i, Some x =>
      if entry_taken s (option_map fst inst) i x
      then inl [("non_field_errors", msg_unique)] else inr d
  | _, _ => inr d
  end.

(** [HabitEntrySerializer.validate]: reads [habit] and [value] from the
    validated data with [data.get]. *)
Definition entry_validate (d : entry_data) : error_dict + entry_data :=
  match ed_habit d, ed_value d with
  | Some (_, h), Some v =>
      match Habit.type h with
      | SINGULAR => if negb (v =? 1)%Z
                    then inl [("non_field_errors", msg_singular)] else inr d
      | TIMED => if (v <=? 0)%Z
                 then inl [("non_field_errors", msg_timed)] else inr d
      end
  | _, _ => inr d
  end.

(** [Serializer.run_validation]: fields, then validators, then [validate]. *)
Definition entry_run_validation (req : request) (s : db)
    (inst : option (nat * HabitEntry.t)) (partial : bool) (p : entry_payload)
    : error_dict + entry_data :=
  match entry_fields req s partial p with
  | inl es => inl es
  | inr d => match unique_together s inst d with
             | inl es => inl es
             | inr d' => entry_validate d'
             end
  end.

(** [HabitEntrySerializer.create]: [user] is the caller; model defaults for
    [value] (1) and [notes] (null). *)
Definition entry_new (req : request) (d : entry_data) : HabitEntry.t :=
  HabitEntry.mk (upd (option_map fst (ed_habit d)) 0) (req_user req)
    (upd (ed_entry_date d) 0) (upd (ed_value d) 1%Z) (upd (ed_notes d) None)
    (now req) (now req).

Definition entry_apply (d : entry_data) (t : nat) (e : HabitEntry.t)
    : HabitEntry.t :=
  HabitEntry.mk (upd (option_map fst (ed_habit d)) (HabitEntry.habit e))
    (HabitEntry.user e)
    (upd (ed_entry_date d) (HabitEntry.entry_date e))
    (upd (ed_value d) (HabitEntry.value e))
    (upd (ed_notes d) (HabitEntry.notes e))
    (HabitEntry.created_at e) t.

(* ------------------------------------------------------------------ *)
(** ** Database writes ([Model.save], [Model.delete], constraints) *)

(** [Habit.objects.create]: the next auto-increment key; a taken primary key
    is refused by the database. *)
Definition db_insert_habit (h : Habit.t) : M nat :=
  fun s => let id := next_habit_id s in
    match habits s !! id with
    | Some _ => (s, inl IntegrityError)
    | None => (DB (<[id := h]> (habits s)) (entries s) (S id) (next_entry_id s),
               inr id)
    end.

Definition db_save_habit (id : nat) (h : Habit.t) : M unit :=
  fun s => (set_habits (<[id := h]> (habits s)) s, inr tt).

(** [Habit.delete]: [on_delete=CASCADE] removes the habit's entries too. *)
Definition db_delete_habit (id : nat) : M unit :=
  fun s => (DB (delete id (habits s))
               (filter (fun ie => HabitEntry.habit ie.2 <> id) (entries s))
               (next_habit_id s) (next_entry_id s), inr tt).

(** [HabitEntry.objects.create] under [unique_together (habit, entry_date)]. *)
Definition db_insert_entry (e : HabitEntry.t) : M nat :=
  fun s => let id := next_entry_id s in
    match entries s !! id with
    | Some _ => (s, inl IntegrityError)
    | None =>
        if entry_taken s None (HabitEntry.habit e) (HabitEntry.entry_date e)
        then (s, inl IntegrityError)
        else (DB (habits s) (<[id := e]> (entries s)) (next_habit_id s) (S id),
              inr id)
    end.

Definition db_save_entry (id : nat) (e : HabitEntry.t) : M unit :=
  fun s =>
    if entry_taken s (Some id) (HabitEntry.habit e) (HabitEntry.entry_date e)
    then (s, inl IntegrityError)
    else (set_entries (<[id := e]> (entries s)) s, inr tt).

Definition db_delete_entry (id : nat) : M unit :=
  fun s => (set_entries (delete id (entries s)) s, inr tt).

(* ------------------------------------------------------------------ *)
(** ** Querysets and [get_object] *)

Definition by_name (a b : nat * Habit.t) : Prop :=
  String.leb (Habit.name a.2) (Habit.name b.2) = true.
#[global] Instance by_name_dec : RelDecision by_name :=
  fun a b => decide (String.leb (Habit.name a.2) (Habit.name b.2) = true).

Definition by_created (a b : nat * Habit.t) : Prop :=
  Habit.created_at a.2 <= Habit.created_at b.2.
#[global] Instance by_created_dec : RelDecision by_created :=
  fun a b => decide (Habit.created_at a.2 <= Habit.created_at b.2).

Definition by_date_desc (a b : nat * HabitEntry.t) : Prop :=
  HabitEntry.entry_date b.2 <= HabitEntry.entry_date a.2.
#[global] Instance by_date_desc_dec : RelDecision by_date_desc :=
  fun a b => decide (HabitEntry.entry_date b.2 <= HabitEntry.entry_date a.2).

Definition by_date (a b : nat * HabitEntry.t) : Prop :=
  HabitEntry.entry_date a.2 <= HabitEntry.entry_date b.2.
#[global] Instance by_date_dec : RelDecision by_date :=
  fun a b => decide (HabitEntry.entry_date a.2 <= HabitEntry.entry_date b.2).

Definition is_archived (h : Habit.t) : bool :=
  match Habit.archived_at h with Some _ => true | None => false end.

(** [HabitViewSet.get_queryset]; [is_list] is [self.action == "list"]. *)
Definition habit_queryset (u : nat) (is_list : bool) (archived : option string)
    (s : db) : list (nat * Habit.t) :=
  let qs := List.filter (fun ih => Habit.user ih.2 =? u)
                        (map_to_list (habits s)) in
  let qs :=
    if is_list then
      match archived with
      | Some p =>
          if py_in (py_lower p) ["true"; "1"] then List.filter (fun ih => is_archived ih.2) qs
          else if py_in (py_lower p) ["false"; "0"]
          then List.filter (fun ih => negb (is_archived ih.2)) qs
          else qs
      | None => List.filter (fun ih => negb (is_archived ih.2)) qs
      end
    else qs in
  merge_sort by_name qs.

(** The decoded query parameters of the entry list. *)
Record entry_query := EntryQuery {
  q_habit_id : option nat;
  q_start_date : option nat;
  q_end_date : option nat;
  q_date : option nat
}.

Definition no_query : entry_query := EntryQuery None None None None.

Definition opt_filter {A} (o : option nat) (f : nat -> A -> bool) (l : list A)
    : list A :=
  match o with Some x => List.filter (f x) l | None => l end.

(** [HabitEntryViewSet.get_queryset] (for every action). *)
Definition entry_queryset (u : nat) (q : entry_query) (s : db)
    : list (nat * HabitEntry.t) :=
  let qs := List.filter (fun ie => HabitEntry.user ie.2 =? u)
                        (map_to_list (entries s)) in
  let qs := opt_filter (q_habit_id q) (fun x ie => HabitEntry.habit ie.2 =? x) qs in
  let qs := opt_filter (q_start_date q) (fun x ie => x <=? HabitEntry.entry_date ie.2) qs in
  let qs := opt_filter (q_end_date q) (fun x ie => HabitEntry.entry_date ie.2 <=? x) qs in
  let qs := opt_filter (q_date q) (fun x ie => HabitEntry.entry_date ie.2 =? x) qs in
  merge_sort by_date_desc qs.

(** [GenericAPIView.get_object]: look the key up in the queryset
    ([get_object_or_404]), then [check_object_permissions] with [IsOwner]. *)
Definition get_object {A} (owner : A -> nat) (req : request)
    (qs : list (nat * A)) (pk : nat) : M (nat * A) :=
  match List.find (fun ia => ia.1 =? pk) qs with
  | None => raise NotFound
  | Some ia => if owner ia.2 =? req_user req then ret ia
               else raise PermissionDenied
  end.

Definition habit_get_object (req : request) (pk : nat) : M (nat * Habit.t) :=
  s <- get_db;;
  get_object Habit.user req (habit_queryset (req_user req) false None s) pk.

Definition entry_get_object (req : request) (q : entry_query) (pk : nat)
    : M (nat * HabitEntry.t) :=
  s <- get_db;;
  get_object HabitEntry.user req (entry_queryset (req_user req) q s) pk.

(* ------------------------------------------------------------------ *)
(** ** [HabitViewSet] *)

Definition habit_list (req : request) (archived : option string) : M response :=
  s <- get_db;;
  ret (Response 200 (BHabits (habit_queryset (req_user req) true archived s))).

(** [create] -> [perform_create]: [serializer.save(user=request.user)]. *)
Definition habit_create (req : request) (p : habit_payload) : M response :=
  d <- liftV (habit_to_internal_value false p);;
  let h := habit_new (req_user req) (now req) d in
  id <- db_insert_habit h;;
  ret (Response 201 (BHabit id h)).

Definition habit_retrieve (req : request) (pk : nat) : M response :=
  ih <- habit_get_object req pk;;
  ret (Response 200 (BHabit ih.1 ih.2)).

(** [update] / [partial_update] ([partial] is PATCH). *)
Definition habit_update (req : request) (pk : nat) (partial : bool)
    (p : habit_payload) : M response :=
  ih <- habit_get_object req pk;;
  d <- liftV (habit_to_internal_value partial p);;
  let h' := habit_apply d (now req) ih.2 in
  _ <- db_save_habit ih.1 h';;
  ret (Response 200 (BHabit ih.1 h')).

(** [destroy] -> [perform_destroy]: [instance.delete()]. *)
Definition habit_destroy (req : request) (pk : nat) : M response :=
  ih <- habit_get_object req pk;;
  _ <- db_delete_habit ih.1;;
  ret (Response 204 BNone).

Definition set_archived_at (a : option nat) (t : nat) (h : Habit.t) : Habit.t :=
  Habit.mk (Habit.user h) (Habit.name h) (Habit.description h) (Habit.type h)
    (Habit.created_at h) t a (Habit.color h) (Habit.goal_value h)
    (Habit.goal_unit h).

(** The [archive] action. *)
Definition habit_archive (req : request) (pk : nat) : M response :=
  ih <- habit_get_object req pk;;
  match Habit.archived_at ih.2 with
  | None =>
      let h' := set_archived_at (Some (now req)) (now req) ih.2 in
      _ <- db_save_habit ih.1 h';;
      ret (Response 200 (BHabit ih.1 h'))
  | Some _ => ret (Response 200 (BHabit ih.1 ih.2))
  end.

(** The [unarchive] action. *)
Definition habit_unarchive (req : request) (pk : nat) : M response :=
  ih <- habit_get_object req pk;;
  match Habit.archived_at ih.2 with
  | Some _ =>
      let h' := set_archived_at None (now req) ih.2 in
      _ <- db_save_habit ih.1 h';;
      ret (Response 200 (BHabit ih.1 h'))
  | None => ret (Response 200 (BHabit ih.1 ih.2))
  end.

(* ------------------------------------------------------------------ *)
(** ** [HabitEntryViewSet] *)

Definition entry_list (req : request) (q : entry_query) : M response :=
  s <- get_db;;
  ret (Response 200 (BEntries (entry_queryset (req_user req) q s))).

Definition entry_create (req : request) (p : entry_payload) : M response :=
  s <- get_db;;
  d <- liftV (entry_run_validation req s None false p);;
  let e := entry_new req d in
  id <- db_insert_entry e;;
  ret (Response 201 (BEntry id e)).

(** The two steps of [entry_create] that concurrent requests can interleave:
    [serializer.is_valid] (with the [UniqueTogetherValidator] query) and
    [serializer.save] (the INSERT). Each request is its own transaction, so
    a second request may run its validation query before the first one's
    INSERT is committed; only the database's unique index then stops the
    duplicate. *)
Definition entry_create_check (req : request) (p : entry_payload)
    : M entry_data :=
  s <- get_db;;
  liftV (entry_run_validation req s None false p).

Definition entry_create_save (req : request) (d : entry_data) : M response :=
  let e := entry_new req d in
  id <- db_insert_entry e;;
  ret (Response 201 (BEntry id e)).

Definition entry_retrieve (req : request) (q : entry_query) (pk : nat)
    : M response :=
  ie <- entry_get_object req q pk;;
  ret (Response 200 (BEntry ie.1 ie.2)).

Definition entry_update (req : request) (q : entry_query) (pk : nat)
    (partial : bool) (p : entry_payload) : M response :=
  ie <- entry_get_object req q pk;;
  s <- get_db;;
  d <- liftV (entry_run_validation req s (Some ie) partial p);;
  let e' := entry_apply d (now req) ie.2 in
  _ <- db_save_entry ie.1 e';;
  ret (Response 200 (BEntry ie.1 e')).

Definition entry_destroy (req : request) (q : entry_query) (pk : nat)
    : M response :=
  ie <- entry_get_object req q pk;;
  _ <- db_delete_entry ie.1;;
  ret (Response 204 BNone).

(* ------------------------------------------------------------------ *)
(** ** [export_user_data] ([apps/users/views.py]) *)

Definition msg_invalid_format := "Invalid format. Use 'csv' or 'json'.".

Definition export_user_data (req : request) (format : option string)
    : M response :=
  let export_format := py_lower (upd format "") in
  if negb (py_in export_format ["csv"; "json"]) then
    ret (Response 400 (BDetail msg_invalid_format))
  else
    s <- get_db;;
    let hs := merge_sort by_created
                (List.filter (fun ih => Habit.user ih.2 =? req_user req)
                             (map_to_list (habits s))) in
    let es := merge_sort by_date
                (List.filter (fun ie => HabitEntry.user ie.2 =? req_user req)
                             (map_to_list (entries s))) in
    ret (Response 200 (BExport export_format hs es)).

(** The framework's content negotiation, which runs before the view
    ([DefaultContentNegotiation.select_renderer]). The project's settings are
    not part of the repository, so this takes the framework's defaults:
    [URL_FORMAT_OVERRIDE = 'format'] and the renderers [JSONRenderer]
    (format ["json"]) and [BrowsableAPIRenderer] (format ["api"]); the
    client's Accept header is taken to accept any media type. A non-empty
    [format] query value keeps only the renderers whose [format] equals it,
    and when none is left [Http404] is raised, which the exception handler
    answers with 404 and the detail ["Not found."]. *)
Definition renderer_formats := ["json"; "api"].

Definition msg_not_found := "Not found.".

(** Whether [select_renderer] finds no renderer: [if format:] skips the
    filter for an absent or empty value. *)
Definition no_renderer_for (format : option string) : bool :=
  match format with
  | Some f => negb (String.eqb f "") && negb (py_in f renderer_formats)
  | None => false
  end.

(** The export route: negotiation, then the view. *)
Definition export_route (req : request) (format : option string)
    : M response :=
  if no_renderer_for format then ret (Response 404 (BDetail msg_not_found))
  else export_user_data req format.

(* ------------------------------------------------------------------ *)
(** ** Routing ([habits/urls.py], [users/urls.py]) and exception handling *)

Inductive api_call :=
  | HabitList (archived : option string)
  | HabitCreate (p : habit_payload)
  | HabitRetrieve (pk : nat)
  | HabitUpdate (pk : nat) (partial : bool) (p : habit_payload)
  | HabitDestroy (pk : nat)
  | HabitArchive (pk : nat)
  | HabitUnarchive (pk : nat)
  | EntryList (q : entry_query)
  | EntryCreate (p : entry_payload)
  | EntryRetrieve (q : entry_query) (pk : nat)
  | EntryUpdate (q : entry_query) (pk : nat) (partial : bool) (p : entry_payload)
  | EntryDestroy (q : entry_query) (pk : nat)
  | ExportUserData (format : option string).

Definition handler (req : request) (c : api_call) : M response :=
  match c with
  | HabitList a => habit_list req a
  | HabitCreate p => habit_create req p
  | HabitRetrieve pk => habit_retrieve req pk
  | HabitUpdate pk partial p => habit_update req pk partial p
  | HabitDestroy pk => habit_destroy req pk
  | HabitArchive pk => habit_archive req pk
  | HabitUnarchive pk => habit_unarchive req pk
  | EntryList q => entry_list req q
  | EntryCreate p => entry_create req p
  | EntryRetrieve q pk => entry_retrieve req q pk
  | EntryUpdate q pk partial p => entry_update req q pk partial p
  | EntryDestroy q pk => entry_destroy req q pk
  | ExportUserData f => export_route req f
  end.

(** One authenticated request against the database. *)
Definition run (req : request) (c : api_call) (s : db) : db * response :=
  match handler req c s with
  | (s', inl e) => (s', error_response e)
  | (s', inr r) => (s', r)
  end.

(* ------------------------------------------------------------------ *)
(** ** A concrete database (users 1 and 2) *)

Module Scenario.
(** User 1's timed habit "Read Book", active. *)
Definition read_book := Habit.mk 1 "Read Book" None TIMED 0 0 None None None None.
(** User 1's singular habit "Old Project", archived at time 5. *)
Definition old_project :=
  Habit.mk 1 "Old Project" None SINGULAR 0 0 (Some 5) None None None.
(** User 2's singular habit "Run", active. *)
Definition run_b := Habit.mk 2 "Run" None SINGULAR 0 0 None None None None.
(** User 1's entry for "Read Book" on day 100, value 45. *)
Definition read_45 := HabitEntry.mk 1 1 100 45 None 0 0.
(** User 2's entry for "Run" on day 100. *)
Definition run_1 := HabitEntry.mk 3 2 100 1 None 0 0.

Definition db0 : db :=
  DB (<[1 := read_book]> (<[2 := old_project]> (<[3 := run_b]> ∅)))
     (<[1 := read_45]> (<[2 := run_1]> ∅)) 4 3.

(** User 1 at time 50. *)
Definition alice := Request 1 50.
End Scenario.

(* ------------------------------------------------------------------ *)
(** ** Predicates used by the statements *)

(** Whether the caller can see habit [pk]: it exists and is the caller's. *)
Definition habit_visible (u : nat) (s : db) (pk : nat) : bool :=
  match habits s !! pk with Some h => Habit.user h =? u | None => false end.

Definition entry_visible (u : nat) (s : db) (pk : nat) : bool :=
  match entries s !! pk with Some e => HabitEntry.user e =? u | None => false end.

(** The habit id a detail route refers to. *)
Definition habit_detail_pk (c : api_call) : option nat :=
  match c with
  | HabitRetrieve pk | HabitUpdate pk _ _ | HabitDestroy pk
  | HabitArchive pk | HabitUnarchive pk => Some pk
  | _ => None
  end.

Definition entry_detail_pk (c : api_call) : option nat :=
  match c with
  | EntryRetrieve _ pk | EntryUpdate _ pk _ _ | EntryDestroy _ pk => Some pk
  | _ => None
  end.

(** The selection the habit list makes, in the words of its docstring:
    absent means active only; [true]/[1] (any case) archived only;
    [false]/[0] (any case) active only; any other value, no filter. *)
Definition list_selection (archived : option string) (h : Habit.t) : Prop :=
  match archived with
  | None => Habit.archived_at h = None
  | Some p =>
      if py_in (py_lower p) ["true"; "1"] then Habit.archived_at h <> None
      else if py_in (py_lower p) ["false"; "0"] then Habit.archived_at h = None
      else True
  end.

(** Every stored habit name has at least 3 characters. *)
Definition names_ok (s : db) : Prop :=
  map_Forall (fun _ h => 3 <= String.length (Habit.name h)) (habits s).

(** At most one row per (habit, entry_date) in a table of entries. *)
Definition unique_map (m : gmap nat HabitEntry.t) : Prop :=
  forall i j e1 e2, m !! i = Some e1 -> m !! j = Some e2 ->
    HabitEntry.habit e1 = HabitEntry.habit e2 ->
    HabitEntry.entry_date e1 = HabitEntry.entry_date e2 -> i = j.

Definition unique_entries (s : db) : Prop := unique_map (entries s).

(** Every entry points at an existing habit of its own user. *)
Definition entries_consistent (s : db) : Prop :=
  map_Forall (fun _ e => exists h, habits s !! HabitEntry.habit e = Some h
                                   /\ Habit.user h = HabitEntry.user e)
             (entries s).

(** The ["summary"] section of the JSON export, computed from the habit and
    entry lists as [export_user_data] does. *)
Record export_summary := ExportSummary {
  total_habits : nat;
  total_entries : nat;
  active_habits : nat;
  archived_habits : nat
}.

Definition summary_of (hs : list (nat * Habit.t)) (es : list (nat * HabitEntry.t))
    : export_summary :=
  ExportSummary (List.length hs) (List.length es)
    (List.length (List.filter (fun ih => negb (is_archived ih.2)) hs))
    (List.length (List.filter (fun ih => is_archived ih.2) hs)).

(** The auto-increment counters are above every key in use. *)
Definition counters_ok (s : db) : Prop :=
  (forall i, is_Some (habits s !! i) -> i < next_habit_id s)
  /\ (forall i, is_Some (entries s !! i) -> i < next_entry_id s).

(** Whether an entry passes the query filters of [HabitEntryViewSet]
    ([habit_id], [start_date], [end_date], [date]). *)
Definition entry_matches (q : entry_query) (e : HabitEntry.t) : bool :=
  match q_habit_id q with Some x => HabitEntry.habit e =? x | None => true end
  && match q_start_date q with Some x => x <=? HabitEntry.entry_date e | None => true end
  && match q_end_date q with Some x => HabitEntry.entry_date e <=? x | None => true end
  && match q_date q with Some x => HabitEntry.entry_date e =? x | None => true end.

(** The GET routes. *)
Definition is_read_only (c : api_call) : bool :=
  match c with
  | HabitList _ | HabitRetrieve _ | EntryList _ | EntryRetrieve _ _
  | ExportUserData _ => true
  | _ => false
  end.

(** A habit payload whose value for key [k] the field itself refuses: a
    [type] outside the choices, a [color] over 7 or a [goal_unit] over 10
    characters once trimmed, a [goal_value] outside [0, 2147483647]. *)
Definition bad_habit_field (p : habit_payload) (k : string) : Prop :=
  (k = "type" /\ exists t, p_type p = Some t /\ t <> "singular" /\ t <> "timed")
  \/ (k = "color" /\ exists c, p_color p = Some (Some c)
                                /\ 7 < String.length (py_strip c))
  \/ (k = "goal_value" /\ exists v, p_goal_value p = Some (Some v)
                                     /\ (v < 0 \/ 2147483647 < v)%Z)
  \/ (k = "goal_unit" /\ exists u, p_goal_unit p = Some (Some u)
                                    /\ 10 < String.length (py_strip u)).

(** [db0] with a second entry of user 1 for "Read Book", on day 101. *)
Definition read_30 := HabitEntry.mk 1 1 101 30 None 0 0.

Definition db1 : db :=
  DB (habits Scenario.db0) (<[3 := read_30]> (entries Scenario.db0)) 4 4.

(* ================================================================== *)
(** * Properties *)

Import Scenario.

(** Errors reported for one key of the error dictionary. *)
Definition field_msgs (key : string) (errs : error_dict) : list string :=
  map snd (List.filter (fun kv => String.eqb kv.1 key) errs).

(** ** Destroy *)

(** C1: DELETE on the caller's own habit 1 ("Read Book") answers 204 but
    removes the row ([instance.delete()]) instead of setting [archived_at],
    and the cascade removes its entry as well. *)
Theorem C1_destroy_removes_row :
  let r := run alice (HabitDestroy 1) db0 in
  status r.2 = 204 /\ habits r.1 !! 1 = None /\ entries r.1 !! 1 = None
  /\ habits db0 !! 1 = Some read_book /\ entries db0 !! 1 = Some read_45.
Proof. vm_compute. repeat split; reflexivity. Qed.

(** ** Entry value checks *)

(** C2: PATCH of user 1's entry of the timed habit "Read Book" with only
    [value = 0] is accepted and stores 0: [validate] reads the habit from the
    submitted data, which has no [habit] key here, so the timed-type check is
    skipped. *)
Theorem C2_patch_value_zero_accepted :
  let r := run alice (EntryUpdate no_query 1 true
                        (EntryPayload None None (Some 0%Z) None)) db0 in
  status r.2 = 200
  /\ option_map HabitEntry.value (entries r.1 !! 1) = Some 0%Z
  /\ option_map Habit.type (habits db0 !! 1) = Some TIMED.
Proof. vm_compute. repeat split; reflexivity. Qed.

(** ** Habit list filter *)

(** C7 (counterexample): [archived=false] does not list all of the caller's
    habits: the archived habit 2 ("Old Project") is left out. *)
Lemma C7_false_is_active_only :
  run alice (HabitList (Some "false")) db0 =
    (db0, Response 200 (BHabits [(1, read_book)]))
  /\ habits db0 !! 2 = Some old_project.
Proof. split; vm_compute; reflexivity. Qed.

(** ** Querysets and object lookup *)

Lemma in_merge_sort {A} (R : relation A) `{!RelDecision R} (l : list A) x :
  In x (merge_sort R l) <-> In x l.
Proof.
  split; apply Permutation_in;
    [|symmetry]; apply merge_sort_Permutation.
Qed.

Lemma in_map_to_list {A} (m : gmap nat A) (x : nat * A) :
  In x (map_to_list m) <-> m !! x.1 = Some x.2.
Proof.
  destruct x as [i a]. rewrite <- list_elem_of_In. apply elem_of_map_to_list.
Qed.

Lemma in_opt_filter {A} o (f : nat -> A -> bool) (l : list A) x :
  In x (opt_filter o f l) -> In x l.
Proof. destruct o; simpl; [rewrite filter_In; tauto | auto]. Qed.

Lemma habit_queryset_in u b a s x :
  In x (habit_queryset u b a s) ->
  habits s !! x.1 = Some x.2 /\ Habit.user x.2 = u.
Proof.
  unfold habit_queryset. rewrite in_merge_sort.
  assert (Hbase : forall y, In y (List.filter (fun ih => Habit.user ih.2 =? u)
                                   (map_to_list (habits s))) ->
                  habits s !! y.1 = Some y.2 /\ Habit.user y.2 = u).
  { intros y Hy. apply filter_In in Hy as [Hy Hu].
    apply in_map_to_list in Hy. apply Nat.eqb_eq in Hu. auto. }
  destruct b; [|apply Hbase].
  destruct a as [p|];
    [destruct (py_in (py_lower p) ["true"; "1"]);
     [|destruct (py_in (py_lower p) ["false"; "0"])]|];
    intros H; first [ apply Hbase; exact H
                    | apply filter_In in H as [H _]; apply Hbase; exact H ].
Qed.

Lemma entry_queryset_in u q s x :
  In x (entry_queryset u q s) ->
  entries s !! x.1 = Some x.2 /\ HabitEntry.user x.2 = u.
Proof.
  unfold entry_queryset. rewrite in_merge_sort.
  intros H. repeat apply in_opt_filter in H.
  apply filter_In in H as [H Hu]. apply in_map_to_list in H.
  apply Nat.eqb_eq in Hu. auto.
Qed.

(** [get_object] over a queryset of the caller's rows never raises
    [PermissionDenied] and leaves the database alone. *)
Lemma get_object_cases {A} (m : gmap nat A) (owner : A -> nat) req
    (l : list (nat * A)) pk s :
  (forall x, In x l -> m !! x.1 = Some x.2 /\ owner x.2 = req_user req) ->
  get_object owner req l pk s = (s, inl NotFound)
  \/ exists a, m !! pk = Some a /\ owner a = req_user req /\ In (pk, a) l
       /\ get_object owner req l pk s = (s, inr (pk, a)).
Proof.
  intros Hl. unfold get_object.
  destruct (List.find (fun ia => ia.1 =? pk) l) as [[i a]|] eqn:F; [|left; reflexivity].
  pose proof (find_some _ _ F) as [Hin Hi]. simpl in Hi.
  apply Nat.eqb_eq in Hi. subst i.
  destruct (Hl _ Hin) as [Hm Ho]. simpl in Hm, Ho.
  right. exists a. simpl. rewrite Ho, Nat.eqb_refl. auto.
Qed.

Lemma get_object_found {A} (owner : A -> nat) req (l : list (nat * A)) pk a s :
  In (pk, a) l -> get_object owner req l pk s <> (s, inl NotFound).
Proof.
  intros Hin. unfold get_object.
  destruct (List.find (fun ia => ia.1 =? pk) l) eqn:F.
  - destruct (owner p.2 =? req_user req); discriminate.
  - pose proof (find_none _ _ F _ Hin) as H. simpl in H.
    rewrite Nat.eqb_refl in H. discriminate.
Qed.

(** [HabitViewSet.get_object] is a lookup of the caller's own habit. *)
Lemma habit_get_object_eq req pk s :
  habit_get_object req pk s =
    match habits s !! pk with
    | Some h => if Habit.user h =? req_user req then (s, inr (pk, h))
                else (s, inl NotFound)
    | None => (s, inl NotFound)
    end.
Proof.
  unfold habit_get_object, bind, get_db.
  destruct (get_object_cases (habits s) Habit.user req
              (habit_queryset (req_user req) false None s) pk s)
    as [E | (h & Hh & Ho & Hin & E)].
  { intros x Hx. apply habit_queryset_in in Hx. exact Hx. }
  - rewrite E. destruct (habits s !! pk) as [h|] eqn:Hh; [|reflexivity].
    destruct (Habit.user h =? req_user req) eqn:Ho; [|reflexivity].
    exfalso. apply Nat.eqb_eq in Ho.
    apply (get_object_found Habit.user req
             (habit_queryset (req_user req) false None s) pk h s); [|exact E].
    unfold habit_queryset. apply in_merge_sort, filter_In.
    split; [apply in_map_to_list; exact Hh | simpl; apply Nat.eqb_eq; exact Ho].
  - rewrite E, Hh, Ho, Nat.eqb_refl. reflexivity.
Qed.

Lemma entry_get_object_cases req q pk s :
  entry_get_object req q pk s = (s, inl NotFound)
  \/ exists e, entries s !! pk = Some e /\ HabitEntry.user e = req_user req
       /\ entry_get_object req q pk s = (s, inr (pk, e)).
Proof.
  unfold entry_get_object, bind, get_db.
  destruct (get_object_cases (entries s) HabitEntry.user req
              (entry_queryset (req_user req) q s) pk s)
    as [E | (e & He & Ho & _ & E)].
  { intros x Hx. apply entry_queryset_in in Hx. exact Hx. }
  - left. exact E.
  - right. exists e. auto.
Qed.

(** ** Ownership hides existence *)

Ltac split_matches :=
  repeat match goal with
  | |- context [match ?x with _ => _ end] =>
      lazymatch x with
      | context [match _ with _ => _ end] => fail
      | _ => destruct x eqn:?
      end
  end.

Ltac unfold_handlers :=
  unfold run, handler, habit_list, habit_create, habit_retrieve, habit_update,
    habit_destroy, habit_archive, habit_unarchive, entry_list, entry_create,
    entry_retrieve, entry_update, entry_destroy, export_route,
    export_user_data, bind;
  cbv beta.

Ltac unfold_prims :=
  unfold liftV, ret, raise, get_db, db_insert_habit, db_save_habit,
    db_delete_habit, db_insert_entry, db_save_entry, db_delete_entry,
    error_response.

(** C4: no request is ever answered 403; a detail request on a habit or an
    entry that is absent or belongs to someone else is answered 404 and
    changes nothing. *)
Theorem C4_not_found_never_forbidden :
  (forall req c s, status (run req c s).2 <> 403)
  /\ (forall req c s pk, habit_detail_pk c = Some pk ->
        habit_visible (req_user req) s pk = false ->
        run req c s = (s, error_response NotFound))
  /\ (forall req c s pk, entry_detail_pk c = Some pk ->
        entry_visible (req_user req) s pk = false ->
        run req c s = (s, error_response NotFound)).
Proof.
  split; [|split].
  - intros req c s. destruct c; unfold_handlers;
      try rewrite habit_get_object_eq;
      try (let E := fresh in
           destruct (entry_get_object_cases req q pk s) as [E|(?&?&?&E)];
           rewrite E);
      unfold_prims; split_matches; simpl; discriminate.
  - intros req c s k Hpk Hv.
    unfold habit_visible in Hv.
    destruct c; simpl in Hpk; try discriminate; injection Hpk as Hk; subst k;
      unfold_handlers; rewrite habit_get_object_eq;
      destruct (habits s !! pk) as [h|]; try rewrite Hv; reflexivity.
  - intros req c s k Hpk Hv.
    unfold entry_visible in Hv.
    destruct c; simpl in Hpk; try discriminate; injection Hpk as Hk; subst k;
      unfold_handlers;
      (destruct (entry_get_object_cases req q pk s) as [E|(e & He & Hu & E)];
       [rewrite E; reflexivity
       | rewrite He, Hu, Nat.eqb_refl in Hv; discriminate]).
Qed.

(** Witness: user 1 asking for user 2's habit 3, and for user 2's entry 2. *)
Lemma C4_witness :
  run alice (HabitRetrieve 3) db0 = (db0, error_response NotFound)
  /\ run alice (EntryDestroy no_query 2) db0 = (db0, error_response NotFound).
Proof.
  split.
  - apply (proj1 (proj2 C4_not_found_never_forbidden) alice _ db0 3);
      reflexivity.
  - apply (proj2 (proj2 C4_not_found_never_forbidden) alice _ db0 2);
      reflexivity.
Defined.

(** ** Archive and unarchive *)

(** C6: [archive] on an archived habit of the caller and [unarchive] on an
    active one change nothing and answer 200 with the habit as stored. *)
Theorem C6_archive_unarchive_idempotent :
  forall req s pk h,
    habits s !! pk = Some h -> Habit.user h = req_user req ->
    (Habit.archived_at h <> None ->
       run req (HabitArchive pk) s = (s, Response 200 (BHabit pk h)))
    /\ (Habit.archived_at h = None ->
       run req (HabitUnarchive pk) s = (s, Response 200 (BHabit pk h))).
Proof.
  intros req s pk h Hh Hu.
  split; intros Ha; unfold_handlers; rewrite habit_get_object_eq, Hh, Hu,
    Nat.eqb_refl; simpl.
  - destruct (Habit.archived_at h); [reflexivity | congruence].
  - rewrite Ha. reflexivity.
Qed.

(** Witness: archiving user 1's archived "Old Project" again, and
    unarchiving user 1's active "Read Book". *)
Lemma C6_witness :
  run alice (HabitArchive 2) db0 = (db0, Response 200 (BHabit 2 old_project))
  /\ run alice (HabitUnarchive 1) db0 = (db0, Response 200 (BHabit 1 read_book)).
Proof.
  split.
  - apply (C6_archive_unarchive_idempotent alice db0 2 old_project);
      [reflexivity | reflexivity | discriminate].
  - apply (C6_archive_unarchive_idempotent alice db0 1 read_book);
      reflexivity.
Defined.

(** ** Habit list *)

#[global] Instance by_name_total : Total by_name.
Proof. intros a b. unfold by_name. apply String.leb_total. Qed.

Lemma is_archived_spec h : is_archived h = true <-> Habit.archived_at h <> None.
Proof. unfold is_archived. destruct (Habit.archived_at h); split; congruence. Qed.

(** C7 (as the code has it): the list answers 200 with exactly the caller's
    habits that [list_selection] keeps, each once, sorted by name. *)
Theorem C7_list_filter_and_order :
  forall req archived s,
    let r := habit_queryset (req_user req) true archived s in
    run req (HabitList archived) s = (s, Response 200 (BHabits r))
    /\ Sorted by_name r
    /\ NoDup r
    /\ (forall x, In x r <->
          habits s !! x.1 = Some x.2 /\ Habit.user x.2 = req_user req
          /\ list_selection archived x.2).
Proof.
  intros req archived s r. split; [reflexivity|]. split; [apply Sorted_merge_sort; exact by_name_total|].
  split.
  - unfold r, habit_queryset. rewrite NoDup_ListNoDup.
    eapply Stdlib.Sorting.Permutation.Permutation_NoDup;
      [symmetry; apply merge_sort_Permutation|].
    assert (Hb : List.NoDup
                   (List.filter (fun ih => Habit.user ih.2 =? req_user req)
                                (map_to_list (habits s)))).
    { apply List.NoDup_filter, NoDup_ListNoDup, NoDup_map_to_list. }
    destruct archived as [p|];
      [destruct (py_in (py_lower p) ["true"; "1"]);
       [|destruct (py_in (py_lower p) ["false"; "0"])]|];
      first [exact Hb | apply List.NoDup_filter; exact Hb].
  - intros x. unfold r, habit_queryset. rewrite in_merge_sort.
    unfold list_selection.
    destruct archived as [p|];
      [destruct (py_in (py_lower p) ["true"; "1"]);
       [|destruct (py_in (py_lower p) ["false"; "0"])]|];
      rewrite ?filter_In, ?in_map_to_list, ?Nat.eqb_eq;
      [rewrite is_archived_spec | | | ];
      try (rewrite negb_true_iff; unfold is_archived;
           destruct (Habit.archived_at x.2); split; intros; intuition congruence);
      tauto.
Qed.

(** ** Export *)

(** C8: [GET /api/v1/users/me/export/?format=csv] never reaches the view:
    no default renderer has the format [csv], so content negotiation answers
    404 and nothing is exported. Over every [format] value the export never
    writes; it answers 200 exactly for [format=json]; 404 exactly when a
    non-empty value names no renderer (so [csv], [CSV], [JSON], [xml], ...);
    and the view's 400 exactly when the value is absent, empty or [api]. *)
Theorem C8_csv_export_not_found :
  (forall req s,
     run req (ExportUserData (Some "csv")) s
     = (s, Response 404 (BDetail msg_not_found)))
  /\ (forall req format s,
        let r := run req (ExportUserData format) s in
        r.1 = s
        /\ (status r.2 = 200 <-> format = Some "json")
        /\ (status r.2 = 404 <-> no_renderer_for format = true)
        /\ (status r.2 = 400 <->
              format = None \/ format = Some "" \/ format = Some "api")).
Proof.
  split.
  - intros req s. reflexivity.
  - intros req format s r. unfold r. unfold_handlers.
    destruct format as [f|]; simpl.
    + destruct (String.eqb_spec f "") as [->|Hne]; simpl.
      { repeat split; intros H; try discriminate; try congruence; auto. }
      destruct (String.eqb_spec f "json") as [->|Hj]; simpl.
      { repeat split; intros H; try discriminate; try congruence; auto;
          destruct H as [H|[H|H]]; discriminate. }
      destruct (String.eqb_spec f "api") as [->|Ha]; simpl.
      { repeat split; intros H; try discriminate; try congruence; auto. }
      repeat split; intros H; try discriminate; try congruence; auto;
        destruct H as [H|[H|H]]; congruence.
    + repeat split; intros H; try discriminate; try congruence; auto.
Qed.

(** ** Entry creation: ownership, then archive state *)

Lemma field_check_keys {A B} k r v (f : A -> string + B) :
  Forall (fun kv => kv.1 = k) (field_check k r v f).1.
Proof.
  unfold field_check. destruct v as [a|]; [destruct (f a)|destruct r]; simpl;
    repeat constructor.
Qed.

Lemma field_msgs_app key (l1 l2 : error_dict) :
  field_msgs key (l1 ++ l2)%list = (field_msgs key l1 ++ field_msgs key l2)%list.
Proof. unfold field_msgs. rewrite List.filter_app, map_app. reflexivity. Qed.

Lemma field_msgs_other key l :
  Forall (fun kv => kv.1 <> key) l -> field_msgs key l = [].
Proof.
  induction 1 as [|[k m] l Hk _ IH]; [reflexivity|].
  unfold field_msgs in *. simpl in *.
  apply String.eqb_neq in Hk. rewrite Hk. exact IH.
Qed.

Lemma field_check_other_key {A B} k k' r v (f : A -> string + B) :
  k <> k' -> field_msgs k' (field_check k r v f).1 = [].
Proof.
  intros Hk. apply field_msgs_other.
  eapply Forall_impl; [apply field_check_keys|]. intros kv ->. exact Hk.
Qed.

(** A refused [habit] key: its message is the only one under [habit]. *)
Lemma entry_validation_habit_error req s inst partial p hid m :
  ep_habit p = Some hid -> habit_field req s hid = inl m ->
  exists es, entry_run_validation req s inst partial p = inl es
             /\ field_msgs "habit" es = [m].
Proof.
  intros Hp Hm. unfold entry_run_validation, entry_fields.
  rewrite Hp. cbn [field_check]. rewrite Hm.
  destruct (field_check "entry_date" _ (ep_entry_date p) _) as [e2 dt] eqn:E2.
  destruct (field_check "value" _ (ep_value p) _) as [e3 vl] eqn:E3.
  destruct (field_check "notes" _ (ep_notes p) _) as [e4 nt] eqn:E4.
  eexists. split; [reflexivity|].
  cbn [app]. unfold field_msgs at 1. simpl.
  fold (field_msgs "habit" (e2 ++ e3 ++ e4)%list).
  rewrite !field_msgs_app.
  pose proof (field_check_other_key "entry_date" "habit" (negb partial)
                (ep_entry_date p) (fun d : nat => inr d : string + nat)) as H2.
  pose proof (field_check_other_key "value" "habit" false (ep_value p)
                positive_integer_field) as H3.
  pose proof (field_check_other_key "notes" "habit" false (ep_notes p)
                (fun n : option string => inr (option_map py_strip n)
                   : string + option string)) as H4.
  rewrite E2 in H2. rewrite E3 in H3. rewrite E4 in H4. simpl in H2, H3, H4.
  rewrite H2, H3, H4 by discriminate. reflexivity.
Qed.

Lemma entry_create_validation_error req s p es :
  entry_run_validation req s None false p = inl es ->
  run req (EntryCreate p) s = (s, Response 400 (BErrors es)).
Proof.
  intros E. unfold_handlers. unfold get_db. cbv beta. rewrite E. reflexivity.
Qed.

(** C5: an entry for another user's habit is refused with the ownership
    message under [habit], whatever the habit's archive state; an entry for
    the caller's own archived habit is refused with the archive message under
    [habit]; neither request writes. *)
Theorem C5_entry_habit_checks :
  forall req s p hid h,
    ep_habit p = Some hid -> habits s !! hid = Some h ->
    (Habit.user h <> req_user req ->
       exists errs, run req (EntryCreate p) s = (s, Response 400 (BErrors errs))
                    /\ field_msgs "habit" errs = [msg_own_habit])
    /\ (Habit.user h = req_user req -> Habit.archived_at h <> None ->
       exists errs, run req (EntryCreate p) s = (s, Response 400 (BErrors errs))
                    /\ field_msgs "habit" errs = [msg_archived_habit]).
Proof.
  intros req s p hid h Hp Hh. split.
  - intros Hu.
    destruct (entry_validation_habit_error req s None false p hid msg_own_habit)
      as (es & E & Hm); [exact Hp| |].
    + unfold habit_field, validate_habit. rewrite Hh.
      apply Nat.eqb_neq in Hu. rewrite Hu. reflexivity.
    + exists es. split; [apply entry_create_validation_error, E | exact Hm].
  - intros Hu Ha.
    destruct (entry_validation_habit_error req s None false p hid
                msg_archived_habit) as (es & E & Hm); [exact Hp| |].
    + unfold habit_field, validate_habit. rewrite Hh, Hu, Nat.eqb_refl. simpl.
      destruct (Habit.archived_at h); [reflexivity | congruence].
    + exists es. split; [apply entry_create_validation_error, E | exact Hm].
Qed.

(** Witness: user 1 logging user 2's habit 3, and user 1's archived habit 2. *)
Lemma C5_witness :
  (exists errs,
     run alice (EntryCreate (EntryPayload (Some 3) (Some 7) None None)) db0
       = (db0, Response 400 (BErrors errs))
     /\ field_msgs "habit" errs = [msg_own_habit])
  /\ (exists errs,
     run alice (EntryCreate (EntryPayload (Some 2) (Some 7) None None)) db0
       = (db0, Response 400 (BErrors errs))
     /\ field_msgs "habit" errs = [msg_archived_habit]).
Proof.
  split.
  - apply (C5_entry_habit_checks alice db0 _ 3 run_b);
      [reflexivity | reflexivity | simpl; lia].
  - apply (C5_entry_habit_checks alice db0 _ 2 old_project);
      [reflexivity | reflexivity | reflexivity | discriminate].
Defined.

(** ** Habit updates leave entries alone *)

(** C10: a habit update (PUT or PATCH) of habit [pk], successful or not,
    writes at most the row [pk]: the entry table, every other habit row and
    both auto-increment counters are as they were. So retyping user 1's
    timed "Read Book" to singular keeps its entry of value 45 attached to
    the now singular habit. *)
Theorem C10_habit_update_keeps_entries :
  (forall req pk partial p s,
     let s' := (run req (HabitUpdate pk partial p) s).1 in
     entries s' = entries s
     /\ (forall j, j <> pk -> habits s' !! j = habits s !! j)
     /\ next_habit_id s' = next_habit_id s
     /\ next_entry_id s' = next_entry_id s)
  /\ (let r := run alice (HabitUpdate 1 true
                  (HabitPayload None None (Some "singular") None None None None))
                  db0 in
      status r.2 = 200
      /\ option_map Habit.type (habits r.1 !! 1) = Some SINGULAR
      /\ entries r.1 !! 1 = Some read_45
      /\ HabitEntry.habit read_45 = 1 /\ HabitEntry.value read_45 = 45%Z).
Proof.
  split.
  - intros req pk partial p s s'. unfold s'. unfold_handlers.
    rewrite habit_get_object_eq. unfold_prims. split_matches; simpl;
      repeat split; try reflexivity;
      intros j Hj; rewrite ?lookup_insert_ne by congruence; reflexivity.
  - vm_compute. repeat split; reflexivity.
Qed.

(** ** Habit names *)

Lemma length_string_of_list_ascii l :
  String.length (string_of_list_ascii l) = List.length l.
Proof. induction l; simpl; congruence. Qed.

Lemma length_list_ascii_of_string s :
  List.length (list_ascii_of_string s) = String.length s.
Proof. induction s; simpl; congruence. Qed.

Lemma length_py_lstrip s : String.length (py_lstrip s) <= String.length s.
Proof. induction s as [|c s IH]; simpl; [lia|]. destruct (py_isspace c); simpl; lia. Qed.

Lemma length_py_strip s : String.length (py_strip s) <= String.length s.
Proof.
  unfold py_strip, py_rstrip.
  rewrite length_string_of_list_ascii, length_rev, length_list_ascii_of_string.
  etransitivity; [apply length_py_lstrip|].
  rewrite length_string_of_list_ascii, length_rev, length_list_ascii_of_string.
  apply length_py_lstrip.
Qed.

Lemma name_field_ok raw n : name_field raw = inr n -> 3 <= String.length n.
Proof.
  unfold name_field, validate_name. cbv zeta.
  destruct (String.eqb (py_strip raw) ""); [discriminate|].
  destruct (100 <? String.length (py_strip raw)); [discriminate|].
  destruct (String.length (py_strip raw) <? 3) eqn:L; [discriminate|].
  intros [= <-]. apply Nat.ltb_ge in L. exact L.
Qed.

Lemma name_field_short raw :
  String.length raw < 3 -> exists m, name_field raw = inl m.
Proof.
  intros Hl. pose proof (length_py_strip raw) as Hs.
  unfold name_field, validate_name. cbv zeta.
  destruct (String.eqb (py_strip raw) ""); [eauto|].
  destruct (100 <? String.length (py_strip raw)); [eauto|].
  destruct (String.length (py_strip raw) <? 3) eqn:L; [eauto|].
  apply Nat.ltb_ge in L. lia.
Qed.

Lemma field_check_some {A B} k r v (f : A -> string + B) e b :
  field_check k r v f = (e, Some b) -> exists a, v = Some a /\ f a = inr b.
Proof.
  unfold field_check. destruct v as [a|]; [|destruct r; discriminate].
  destruct (f a) eqn:F; [discriminate|]. intros [= _ ->]. eauto.
Qed.

Lemma field_check_required {A B} k v (f : A -> string + B) b :
  field_check k true v f = ([], b) -> b <> None.
Proof.
  unfold field_check. destruct v as [a|]; [|discriminate].
  destruct (f a); [discriminate|]. intros [= <-]. discriminate.
Qed.

(** What a successful [HabitSerializer] validation says about [name]. *)
Lemma habit_validation_name partial p d :
  habit_to_internal_value partial p = inr d ->
  (forall n, d_name d = Some n -> 3 <= String.length n)
  /\ (partial = false -> d_name d <> None).
Proof.
  unfold habit_to_internal_value.
  destruct (field_check "name" _ (p_name p) name_field) as [e1 nm] eqn:E1.
  repeat match goal with
         | |- context [let '(_, _) := ?x in _] => destruct x
         end.
  destruct (e1 ++ _)%list eqn:E; [|discriminate].
  intros [= <-]. simpl. apply app_eq_nil in E as [-> _]. split.
  - intros n ->. apply field_check_some in E1 as (a & _ & Ha).
    exact (name_field_ok a n Ha).
  - intros ->. exact (field_check_required _ _ _ _ E1).
Qed.

Lemma names_ok_insert s id h :
  names_ok s -> 3 <= String.length (Habit.name h) ->
  map_Forall (fun _ h => 3 <= String.length (Habit.name h))
             (<[id := h]> (habits s)).
Proof. intros Hs Hh. apply map_Forall_insert_2; assumption. Qed.

Ltac stored_name :=
  match goal with
  | Hs : names_ok ?s, H : habits ?s !! _ = Some ?t |- _ =>
      exact (map_Forall_lookup_1 _ _ _ _ Hs H)
  end.

(** C9: every request keeps every stored habit name at 3 characters or more;
    a create whose [name] is missing or shorter than 3 characters is refused
    with an error under [name] and writes nothing. *)
Theorem C9_habit_name_length :
  (forall req c s, names_ok s -> names_ok (run req c s).1)
  /\ (forall req p s,
        (p_name p = None \/
         exists n, p_name p = Some n /\ String.length n < 3) ->
        exists errs, run req (HabitCreate p) s = (s, Response 400 (BErrors errs))
                     /\ field_msgs "name" errs <> []).
Proof.
  split.
  - intros req c s Hs. destruct c; unfold_handlers;
      try rewrite habit_get_object_eq;
      try (let E := fresh in
           destruct (entry_get_object_cases req q pk s) as [E|(?&?&?&E)];
           rewrite E);
      unfold_prims; split_matches; simpl; try exact Hs.
    + (* create *)
      apply names_ok_insert; [exact Hs|]. simpl.
      match goal with
      | H : habit_to_internal_value _ _ = inr _ |- _ =>
          destruct (habit_validation_name _ _ _ H) as [Hn Hr]
      end.
      destruct (d_name h) as [n|] eqn:Hd; [apply Hn; reflexivity|].
      exfalso. apply (Hr eq_refl). reflexivity.
    + (* update *)
      apply names_ok_insert; [exact Hs|]. simpl.
      match goal with
      | H : habit_to_internal_value _ _ = inr _ |- _ =>
          destruct (habit_validation_name _ _ _ H) as [Hn _]
      end.
      destruct (d_name h) as [n|] eqn:Hd; [apply Hn; reflexivity|].
      stored_name.
    + (* destroy *)
      apply map_Forall_delete. exact Hs.
    + (* archive *)
      apply names_ok_insert; [exact Hs|]. stored_name.
    + (* unarchive *)
      apply names_ok_insert; [exact Hs|]. stored_name.
  - intros req p s Hp.
    assert (Hv : exists es, habit_to_internal_value false p = inl es
                            /\ field_msgs "name" es <> []).
    { unfold habit_to_internal_value.
      assert (H1 : exists m, (field_check "name" true (p_name p) name_field).1
                             = [("name", m)]).
      { destruct Hp as [-> | (n & -> & Hn)]; [eexists; reflexivity|].
        destruct (name_field_short n Hn) as [m Hm].
        exists m. simpl. rewrite Hm. reflexivity. }
      destruct H1 as [m H1]. simpl negb.
      destruct (field_check "name" true (p_name p) name_field) as [e1 nm].
      simpl in H1. subst e1.
      repeat match goal with
             | |- context [let '(_, _) := ?x in _] => destruct x
             end.
      cbn [app]. eexists. split; [reflexivity|].
      unfold field_msgs. simpl. discriminate. }
    destruct Hv as (es & E & Hn). exists es. split; [|exact Hn].
    unfold_handlers. unfold liftV. rewrite E. reflexivity.
Qed.

(** Witness: creating "Walk" in [db0] keeps the invariant; creating "ab" is
    refused. *)
Lemma C9_witness :
  names_ok (run alice (HabitCreate (HabitPayload (Some "Walk") None None None
                                      None None None)) db0).1
  /\ exists errs,
       run alice (HabitCreate (HabitPayload (Some "ab") None None None None
                                 None None)) db0
         = (db0, Response 400 (BErrors errs))
       /\ field_msgs "name" errs <> [].
Proof.
  split.
  - apply (proj1 C9_habit_name_length).
    unfold names_ok. apply map_Forall_to_list. vm_compute.
    repeat constructor.
  - apply (proj2 C9_habit_name_length).
    right. exists "ab". split; [reflexivity | simpl; lia].
Defined.

(** ** One entry per habit and day *)

Lemma unique_map_delete m id : unique_map m -> unique_map (delete id m).
Proof.
  intros Hm i j e1 e2 H1 H2.
  apply lookup_delete_Some in H1 as [_ H1]. apply lookup_delete_Some in H2 as [_ H2].
  eauto.
Qed.

Lemma unique_map_filter (P : nat * HabitEntry.t -> Prop) `{!∀ x, Decision (P x)} m :
  unique_map m -> unique_map (filter P m).
Proof.
  intros Hm i j e1 e2 H1 H2.
  apply map_lookup_filter_Some in H1 as [H1 _].
  apply map_lookup_filter_Some in H2 as [H2 _]. eauto.
Qed.

Lemma unique_map_insert m id e :
  unique_map m ->
  (forall i e', m !! i = Some e' -> i <> id ->
     HabitEntry.habit e' = HabitEntry.habit e ->
     HabitEntry.entry_date e' = HabitEntry.entry_date e -> False) ->
  unique_map (<[id := e]> m).
Proof.
  intros Hm Hfree i j e1 e2 H1 H2 Hh Hd.
  apply lookup_insert_Some in H1 as [[<- <-]|[Hi H1]];
  apply lookup_insert_Some in H2 as [[<- <-]|[Hj H2]]; auto.
  - exfalso. apply (Hfree j e2 H2); [congruence..].
  - exfalso. apply (Hfree i e1 H1); [congruence..].
  - eauto.
Qed.

Lemma entry_taken_true s self i e :
  entries s !! i = Some e -> is_self self i = false ->
  entry_taken s self (HabitEntry.habit e) (HabitEntry.entry_date e) = true.
Proof.
  intros Hi Hs. unfold entry_taken. apply existsb_exists.
  exists (i, e). split; [apply in_map_to_list; exact Hi|].
  simpl. rewrite Hs, !Nat.eqb_refl. reflexivity.
Qed.

Lemma entry_taken_false s self hid d i e :
  entry_taken s self hid d = false -> entries s !! i = Some e ->
  is_self self i = false -> HabitEntry.habit e = hid ->
  HabitEntry.entry_date e = d -> False.
Proof.
  intros Ht Hi Hs <- <-. rewrite (entry_taken_true s self i e Hi Hs) in Ht.
  discriminate.
Qed.

Lemma field_check_present {A B} k r a (f : A -> string + B) b :
  field_check k r (Some a) f = ([], b) -> exists y, b = Some y /\ f a = inr y.
Proof.
  unfold field_check. destruct (f a) eqn:F; [discriminate|].
  intros [= <-]. eauto.
Qed.

Lemma habit_field_key req s hid y : habit_field req s hid = inr y -> y.1 = hid.
Proof.
  unfold habit_field. destruct (habits s !! hid); [|discriminate].
  destruct (validate_habit req t); [discriminate|]. intros [= <-]. reflexivity.
Qed.

(** An entry create naming a (habit, entry_date) already in the table never
    passes validation. *)
Lemma entry_validation_duplicate req s p hid d i e :
  ep_habit p = Some hid -> ep_entry_date p = Some d ->
  entries s !! i = Some e -> HabitEntry.habit e = hid ->
  HabitEntry.entry_date e = d ->
  exists es, entry_run_validation req s None false p = inl es.
Proof.
  intros Hp Hd Hi Hh Hdt. unfold entry_run_validation.
  destruct (entry_fields req s false p) as [es|dd] eqn:F; [eauto|].
  unfold entry_fields in F. rewrite Hp, Hd in F.
  destruct (field_check "habit" _ (Some hid) _) as [e1 hb] eqn:E1.
  destruct (field_check "entry_date" _ (Some d) _) as [e2 dt] eqn:E2.
  destruct (field_check "value" _ (ep_value p) _) as [e3 vl].
  destruct (field_check "notes" _ (ep_notes p) _) as [e4 nt].
  destruct (e1 ++ e2 ++ e3 ++ e4)%list eqn:E; [|discriminate].
  injection F as <-.
  apply app_eq_nil in E as [-> E]. apply app_eq_nil in E as [-> _].
  apply field_check_present in E1 as ([hid' h] & -> & Hy).
  apply habit_field_key in Hy. simpl in Hy. subst hid'.
  apply field_check_present in E2 as (d' & -> & [= <-]).
  unfold unique_together. simpl. subst hid d.
  rewrite (entry_taken_true s None i e Hi eq_refl). eauto.
Qed.

(** C3: every request keeps at most one entry per (habit, entry_date); a
    create naming a (habit, entry_date) that already has an entry is refused
    with a validation error and leaves the database as it was. *)
Theorem C3_unique_habit_date :
  (forall req c s, unique_entries s -> unique_entries (run req c s).1)
  /\ (forall req p s hid d i e,
        ep_habit p = Some hid -> ep_entry_date p = Some d ->
        entries s !! i = Some e -> HabitEntry.habit e = hid ->
        HabitEntry.entry_date e = d ->
        exists errs,
          run req (EntryCreate p) s = (s, Response 400 (BErrors errs))).
Proof.
  split.
  - intros req c s Hs. destruct c; unfold_handlers;
      try rewrite habit_get_object_eq;
      try (let E := fresh in
           destruct (entry_get_object_cases req q pk s) as [E|(?&?&?&E)];
           rewrite E);
      unfold_prims; split_matches; simpl; try exact Hs.
    + (* habit destroy: the cascade deletes rows *)
      apply unique_map_filter. exact Hs.
    + (* entry create *)
      apply unique_map_insert; [exact Hs|].
      intros i e' Hi _ Hh Hd.
      match goal with
      | H : entry_taken _ None _ _ = false |- _ =>
          exact (entry_taken_false _ _ _ _ i e' H Hi eq_refl Hh Hd)
      end.
    + (* entry update *)
      apply unique_map_insert; [exact Hs|].
      intros i e' Hi Hne Hh Hd.
      match goal with
      | H : entry_taken _ (Some _) _ _ = false |- _ =>
          refine (entry_taken_false _ _ _ _ i e' H Hi _ Hh Hd)
      end.
      simpl. apply Nat.eqb_neq. congruence.
    + (* entry destroy *)
      apply unique_map_delete. exact Hs.
  - intros req p s hid d i e Hp Hd Hi Hh Hdt.
    destruct (entry_validation_duplicate req s p hid d i e Hp Hd Hi Hh Hdt)
      as [es E].
    exists es. apply entry_create_validation_error, E.
Qed.

(** Witness: [db0] has one entry per (habit, day), so a further create keeps
    it so; and user 1 logging "Read Book" again on day 100 is refused. *)
Lemma C3_witness :
  unique_entries (run alice (EntryCreate (EntryPayload (Some 1) (Some 101)
                                            (Some 30%Z) None)) db0).1
  /\ exists errs,
       run alice (EntryCreate (EntryPayload (Some 1) (Some 100) (Some 30%Z) None))
           db0 = (db0, Response 400 (BErrors errs)).
Proof.
  split.
  - apply (proj1 C3_unique_habit_date).
    intros i j e1 e2 H1 H2. unfold db0 in H1, H2. simpl entries in H1, H2.
    rewrite !lookup_insert_Some, lookup_empty in H1, H2.
    destruct H1 as [[<- <-]|[? [[<- <-]|[? ?]]]]; try discriminate;
    destruct H2 as [[<- <-]|[? [[<- <-]|[? ?]]]]; try discriminate;
    simpl; lia.
  - apply (proj2 C3_unique_habit_date alice _ db0 1 100 1 read_45);
      reflexivity.
Defined.

Lemma unique_together_id s inst d d' :
  unique_together s inst d = inr d' -> d' = d.
Proof.
  unfold unique_together. repeat case_match; congruence.
Qed.

(** The create path does apply the per-type value rule: there the [habit]
    key is required, so [validate] always sees the habit. *)
Lemma entry_create_enforces_value_rule req s p hid h v :
  ep_habit p = Some hid -> habits s !! hid = Some h -> ep_value p = Some v ->
  (Habit.type h = SINGULAR /\ v <> 1%Z \/ Habit.type h = TIMED /\ (v <= 0)%Z) ->
  exists errs, run req (EntryCreate p) s = (s, Response 400 (BErrors errs)).
Proof.
  intros Hp Hh Hv Hbad.
  destruct (entry_run_validation req s None false p) as [es|dd] eqn:E;
    [exists es; apply entry_create_validation_error, E|].
  exfalso. unfold entry_run_validation, entry_fields in E.
  rewrite Hp, Hv in E.
  destruct (field_check "habit" _ (Some hid) _) as [e1 hb] eqn:E1.
  destruct (field_check "entry_date" _ (ep_entry_date p) _) as [e2 dt].
  destruct (field_check "value" _ (Some v) _) as [e3 vl] eqn:E3.
  destruct (field_check "notes" _ (ep_notes p) _) as [e4 nt].
  destruct (e1 ++ e2 ++ e3 ++ e4)%list eqn:En; [|discriminate].
  apply app_eq_nil in En as [-> En]. apply app_eq_nil in En as [-> En].
  apply app_eq_nil in En as [-> _].
  apply field_check_present in E1 as (y & -> & Hy).
  apply field_check_present in E3 as (v' & -> & Hv').
  unfold habit_field in Hy. rewrite Hh in Hy.
  destruct (validate_habit req h) as [|h'] eqn:Hval; [discriminate|].
  injection Hy as <-.
  unfold validate_habit in Hval.
  destruct (negb (Habit.user h =? req_user req)); [discriminate|].
  destruct (Habit.archived_at h); [discriminate|]. injection Hval as <-.
  unfold positive_integer_field in Hv'.
  destruct (v <? 0)%Z; [discriminate|].
  destruct (2147483647 <? v)%Z; [discriminate|]. injection Hv' as <-.
  destruct (unique_together s None _) as [|d'] eqn:U; [discriminate|].
  apply unique_together_id in U. subst d'.
  unfold entry_validate in E. simpl in E.
  destruct Hbad as [[Ht Hne] | [Ht Hle]]; rewrite Ht in E.
  - apply Z.eqb_neq in Hne. rewrite Hne in E. discriminate.
  - apply Z.leb_le in Hle. rewrite Hle in E. discriminate.
Qed.

(* ------------------------------------------------------------------ *)
(** ** Facts about [db0] *)

Lemma db0_consistent : entries_consistent db0.
Proof.
  intros i e He. simpl in He. rewrite !lookup_insert_Some, lookup_empty in He.
  decompose [or and] He; subst; try discriminate; eexists; split; reflexivity.
Qed.

Lemma db0_counters : counters_ok db0.
Proof.
  split; intros i [x Hx]; simpl in Hx;
    rewrite ?lookup_insert_Some, ?lookup_empty in Hx;
    decompose [or and] Hx; subst; try discriminate; simpl; lia.
Qed.

(* ------------------------------------------------------------------ *)
(** ** Entry querysets *)

Lemma in_opt_filter_iff {A} o (f : nat -> A -> bool) (l : list A) x :
  In x (opt_filter o f l) <->
  In x l /\ match o with Some v => f v x = true | None => True end.
Proof. destruct o; simpl; [apply filter_In | tauto]. Qed.

Lemma NoDup_opt_filter {A} o (f : nat -> A -> bool) (l : list A) :
  List.NoDup l -> List.NoDup (opt_filter o f l).
Proof. destruct o; simpl; [apply List.NoDup_filter | auto]. Qed.

Lemma entry_queryset_spec u q s x :
  In x (entry_queryset u q s) <->
  entries s !! x.1 = Some x.2 /\ HabitEntry.user x.2 = u
  /\ entry_matches q x.2 = true.
Proof.
  unfold entry_queryset. rewrite in_merge_sort, !in_opt_filter_iff, filter_In,
    in_map_to_list, Nat.eqb_eq.
  unfold entry_matches.
  destruct (q_habit_id q), (q_start_date q), (q_end_date q), (q_date q);
    simpl; rewrite ?andb_true_iff; tauto.
Qed.

Lemma entry_queryset_NoDup u q s : NoDup (entry_queryset u q s).
Proof.
  unfold entry_queryset. rewrite NoDup_ListNoDup.
  eapply Stdlib.Sorting.Permutation.Permutation_NoDup;
    [symmetry; apply merge_sort_Permutation|].
  repeat apply NoDup_opt_filter.
  apply List.NoDup_filter, NoDup_ListNoDup, NoDup_map_to_list.
Qed.

#[global] Instance by_date_desc_total : Total by_date_desc.
Proof. intros a b. unfold by_date_desc. lia. Qed.

#[global] Instance by_created_total : Total by_created.
Proof. intros a b. unfold by_created. lia. Qed.

#[global] Instance by_date_total : Total by_date.
Proof. intros a b. unfold by_date. lia. Qed.

(** [HabitEntryViewSet.get_object] is a lookup of the caller's own entry
    among those passing the query filters. *)
Lemma entry_get_object_eq req q pk s :
  entry_get_object req q pk s =
    match entries s !! pk with
    | Some e => if (HabitEntry.user e =? req_user req) && entry_matches q e
                then (s, inr (pk, e)) else (s, inl NotFound)
    | None => (s, inl NotFound)
    end.
Proof.
  unfold entry_get_object, bind, get_db.
  destruct (get_object_cases (entries s) HabitEntry.user req
              (entry_queryset (req_user req) q s) pk s)
    as [E | (e & He & Ho & Hin & E)].
  { intros x Hx. apply entry_queryset_in in Hx. exact Hx. }
  - rewrite E. destruct (entries s !! pk) as [e|] eqn:He; [|reflexivity].
    destruct ((HabitEntry.user e =? req_user req) && entry_matches q e) eqn:Ho;
      [|reflexivity].
    exfalso. apply andb_true_iff in Ho as [Ho Hm]. apply Nat.eqb_eq in Ho.
    apply (get_object_found HabitEntry.user req
             (entry_queryset (req_user req) q s) pk e s); [|exact E].
    apply entry_queryset_spec. auto.
  - rewrite E, He, Ho, Nat.eqb_refl. simpl.
    apply entry_queryset_spec in Hin as (_ & _ & Hm). simpl in Hm.
    rewrite Hm. reflexivity.
Qed.

Lemma entry_matches_spec q e :
  entry_matches q e = true <->
  (forall hid, q_habit_id q = Some hid -> HabitEntry.habit e = hid)
  /\ (forall d, q_start_date q = Some d -> d <= HabitEntry.entry_date e)
  /\ (forall d, q_end_date q = Some d -> HabitEntry.entry_date e <= d)
  /\ (forall d, q_date q = Some d -> HabitEntry.entry_date e = d).
Proof.
  unfold entry_matches.
  destruct (q_habit_id q), (q_start_date q), (q_end_date q), (q_date q);
    simpl; rewrite ?andb_true_iff, ?Nat.eqb_eq, ?Nat.leb_le; naive_solver.
Qed.

(** ** Entry list *)

(** X1: the entry list answers 200 without writing, with exactly the
    caller's entries that pass every query filter given, each once, sorted
    by [entry_date] from the latest. *)
Theorem X1_entry_list_contents :
  forall req q s,
    let r := entry_queryset (req_user req) q s in
    run req (EntryList q) s = (s, Response 200 (BEntries r))
    /\ Sorted by_date_desc r
    /\ NoDup r
    /\ (forall x, In x r <->
          entries s !! x.1 = Some x.2 /\ HabitEntry.user x.2 = req_user req
          /\ (forall hid, q_habit_id q = Some hid -> HabitEntry.habit x.2 = hid)
          /\ (forall d, q_start_date q = Some d -> d <= HabitEntry.entry_date x.2)
          /\ (forall d, q_end_date q = Some d -> HabitEntry.entry_date x.2 <= d)
          /\ (forall d, q_date q = Some d -> HabitEntry.entry_date x.2 = d)).
Proof.
  intros req q s r. split; [reflexivity|].
  split; [apply Sorted_merge_sort; exact by_date_desc_total|].
  split; [apply entry_queryset_NoDup|].
  intros x. unfold r. rewrite entry_queryset_spec, entry_matches_spec. tauto.
Qed.

(** ** What a successful validation says about the payload *)

Lemma field_check_ok {A B} k r v (f : A -> string + B) b :
  field_check k r v f = ([], b) ->
  (v = None /\ b = None /\ r = false)
  \/ (exists a y, v = Some a /\ f a = inr y /\ b = Some y).
Proof.
  unfold field_check. destruct v as [a|].
  - destruct (f a) eqn:F; [discriminate|]. intros [= <-]. right. eauto.
  - destruct r; [discriminate|]. intros [= <-]. left. auto.
Qed.

Lemma entry_validate_id d d' : entry_validate d = inr d' -> d' = d.
Proof. unfold entry_validate. repeat case_match; congruence. Qed.

Lemma entry_run_validation_inv req s inst partial p d :
  entry_run_validation req s inst partial p = inr d ->
  entry_fields req s partial p = inr d /\ unique_together s inst d = inr d
  /\ entry_validate d = inr d.
Proof.
  unfold entry_run_validation.
  destruct (entry_fields req s partial p) as [|d0] eqn:F; [discriminate|].
  destruct (unique_together s inst d0) as [|d1] eqn:U; [discriminate|].
  pose proof (unique_together_id _ _ _ _ U) as ->.
  intros E. pose proof (entry_validate_id _ _ E) as ->. auto.
Qed.

Lemma habit_field_ok req s hid y :
  habit_field req s hid = inr y ->
  exists h, y = (hid, h) /\ habits s !! hid = Some h
            /\ Habit.user h = req_user req /\ Habit.archived_at h = None.
Proof.
  unfold habit_field, validate_habit.
  destruct (habits s !! hid) as [h|]; [|discriminate].
  destruct (Habit.user h =? req_user req) eqn:U; simpl; [|discriminate].
  destruct (Habit.archived_at h) eqn:A; [discriminate|].
  intros [= <-]. apply Nat.eqb_eq in U. eauto.
Qed.

Lemma positive_integer_field_ok v w :
  positive_integer_field v = inr w -> w = v /\ (0 <= v <= 2147483647)%Z.
Proof.
  unfold positive_integer_field.
  destruct (v <? 0)%Z eqn:L; [discriminate|].
  destruct (2147483647 <? v)%Z eqn:G; [discriminate|].
  intros [= <-]. apply Z.ltb_ge in L, G. split; [reflexivity | lia].
Qed.

Lemma entry_fields_ok req s partial p d :
  entry_fields req s partial p = inr d ->
  match ep_habit p with
  | None => ed_habit d = None /\ partial = true
  | Some hid => exists h, ed_habit d = Some (hid, h) /\ habits s !! hid = Some h
                /\ Habit.user h = req_user req /\ Habit.archived_at h = None
  end
  /\ match ep_entry_date p with
     | None => ed_entry_date d = None /\ partial = true
     | Some x => ed_entry_date d = Some x
     end
  /\ match ep_value p with
     | None => ed_value d = None
     | Some v => ed_value d = Some v /\ (0 <= v <= 2147483647)%Z
     end
  /\ (ep_notes p = None -> ed_notes d = None).
Proof.
  unfold entry_fields.
  destruct (field_check "habit" _ (ep_habit p) _) as [e1 hb] eqn:E1.
  destruct (field_check "entry_date" _ (ep_entry_date p) _) as [e2 dt] eqn:E2.
  destruct (field_check "value" _ (ep_value p) _) as [e3 vl] eqn:E3.
  destruct (field_check "notes" _ (ep_notes p) _) as [e4 nt] eqn:E4.
  destruct (e1 ++ e2 ++ e3 ++ e4)%list eqn:En; [|discriminate].
  intros [= <-]. simpl.
  apply app_eq_nil in En as [-> En]. apply app_eq_nil in En as [-> En].
  apply app_eq_nil in En as [-> ->].
  split; [|split; [|split]].
  - apply field_check_ok in E1 as [(-> & -> & Hr)|(a & y & -> & Ha & ->)].
    + apply negb_false_iff in Hr. auto.
    + apply habit_field_ok in Ha as (h & -> & Hh). eauto.
  - apply field_check_ok in E2 as [(-> & -> & Hr)|(a & y & -> & [= <-] & ->)].
    + apply negb_false_iff in Hr. auto.
    + reflexivity.
  - apply field_check_ok in E3 as [(-> & -> & _)|(a & y & -> & Ha & ->)].
    + reflexivity.
    + apply positive_integer_field_ok in Ha as [-> Hb]. auto.
  - intros Hn. rewrite Hn in E4. simpl in E4. congruence.
Qed.

Lemma field_check_absent {A B} k v (f : A -> string + B) e b :
  field_check k false v f = (e, b) -> v = None -> b = None.
Proof. intros E ->. simpl in E. congruence. Qed.

Lemma name_field_strip raw n : name_field raw = inr n -> n = py_strip raw.
Proof.
  unfold name_field, validate_name. cbv zeta.
  destruct (String.eqb (py_strip raw) ""); [discriminate|].
  destruct (100 <? String.length (py_strip raw)); [discriminate|].
  destruct (String.length (py_strip raw) <? 3); [discriminate|].
  congruence.
Qed.

Lemma habit_fields_ok partial p d :
  habit_to_internal_value partial p = inr d ->
  match p_name p with
  | None => d_name d = None /\ partial = true
  | Some raw => d_name d = Some (py_strip raw)
  end
  /\ (p_description p = None -> d_description d = None)
  /\ (p_type p = None -> d_type d = None)
  /\ match p_archived_at p with
     | None => d_archived_at d = None
     | Some a => d_archived_at d = Some a
     end
  /\ (p_color p = None -> d_color d = None)
  /\ (p_goal_value p = None -> d_goal_value d = None)
  /\ (p_goal_unit p = None -> d_goal_unit d = None).
Proof.
  unfold habit_to_internal_value.
  destruct (field_check "name" _ (p_name p) _) as [e1 nm] eqn:E1.
  destruct (field_check "description" _ (p_description p) _) as [e2 ds] eqn:E2.
  destruct (field_check "type" _ (p_type p) _) as [e3 ty] eqn:E3.
  destruct (field_check "archived_at" _ (p_archived_at p) _) as [e4 ar] eqn:E4.
  destruct (field_check "color" _ (p_color p) _) as [e5 co] eqn:E5.
  destruct (field_check "goal_value" _ (p_goal_value p) _) as [e6 gv] eqn:E6.
  destruct (field_check "goal_unit" _ (p_goal_unit p) _) as [e7 gu] eqn:E7.
  destruct (e1 ++ e2 ++ e3 ++ e4 ++ e5 ++ e6 ++ e7)%list eqn:En; [|discriminate].
  intros [= <-]. simpl.
  apply app_eq_nil in En as [-> _].
  split; [|split; [|split; [|split]]];
    try (split; [|split]); try (intros Hn; eapply field_check_absent; eauto).
  - apply field_check_ok in E1 as [(-> & -> & Hr)|(a & y & -> & Ha & ->)].
    + apply negb_false_iff in Hr. auto.
    + apply name_field_strip in Ha. congruence.
  - destruct (p_archived_at p); simpl in E4; congruence.
Qed.

(** ** Entries point at their owner's habits *)

Ltac run_cases req s :=
  unfold_handlers; try rewrite habit_get_object_eq;
  try rewrite entry_get_object_eq; unfold_prims; split_matches; simpl.

Lemma consistent_habits_insert (hs : gmap nat Habit.t)
    (es : gmap nat HabitEntry.t) k h' :
  map_Forall (fun _ e => exists h, hs !! HabitEntry.habit e = Some h
                                   /\ Habit.user h = HabitEntry.user e) es ->
  (forall h0, hs !! k = Some h0 -> Habit.user h' = Habit.user h0) ->
  map_Forall (fun _ e => exists h, <[k := h']> hs !! HabitEntry.habit e = Some h
                                   /\ Habit.user h = HabitEntry.user e) es.
Proof.
  intros Hs Hk i e He. destruct (Hs i e He) as (h & Hh & Hu).
  destruct (decide (k = HabitEntry.habit e)) as [Ek|Hne].
  - exists h'. rewrite <- Ek, lookup_insert_eq. split; [reflexivity|].
    rewrite (Hk h); [exact Hu | rewrite Ek; exact Hh].
  - exists h. rewrite lookup_insert_ne by exact Hne. auto.
Qed.

Lemma validated_entry_habit req s inst partial p d hid h :
  entry_run_validation req s inst partial p = inr d ->
  ed_habit d = Some (hid, h) ->
  ep_habit p = Some hid /\ habits s !! hid = Some h
  /\ Habit.user h = req_user req /\ Habit.archived_at h = None.
Proof.
  intros E Hd. apply entry_run_validation_inv in E as (F & _).
  apply entry_fields_ok in F as (Hh & _).
  destruct (ep_habit p) as [hid'|].
  - destruct Hh as (h' & E' & Hh'). rewrite Hd in E'. injection E' as <- <-.
    auto.
  - destruct Hh as [E' _]. congruence.
Qed.

Lemma validated_entry_create req s p d :
  entry_run_validation req s None false p = inr d ->
  exists hid h x, ed_habit d = Some (hid, h) /\ ed_entry_date d = Some x.
Proof.
  intros E. apply entry_run_validation_inv in E as (F & _).
  apply entry_fields_ok in F as (Hh & Hd & _).
  destruct (ep_habit p) as [hid|]; [|destruct Hh; discriminate].
  destruct (ep_entry_date p) as [x|]; [|destruct Hd; discriminate].
  destruct Hh as (h & -> & _). eauto.
Qed.

(** X5: every request keeps each entry pointing at an existing habit whose
    owner is the entry's owner: creates and updates only accept the caller's
    habits, a habit's owner never changes, and deleting a habit deletes its
    entries. *)
Theorem X5_entries_consistent :
  forall req c s, entries_consistent s -> entries_consistent (run req c s).1.
Proof.
  intros req c s Hs. destruct c; run_cases req s; try exact Hs;
    unfold entries_consistent in *; simpl.
  - (* habit create *)
    apply consistent_habits_insert; [exact Hs|]. congruence.
  - (* habit update *)
    apply consistent_habits_insert; [exact Hs|].
    intros h0 E. simpl. congruence.
  - (* habit destroy *)
    intros i e He. apply map_lookup_filter_Some in He as [He Hne].
    simpl in Hne. destruct (Hs i e He) as (h & Hh & Hu). exists h.
    rewrite lookup_delete_ne by congruence. auto.
  - (* archive *)
    apply consistent_habits_insert; [exact Hs|].
    intros h0 E. simpl. congruence.
  - (* unarchive *)
    apply consistent_habits_insert; [exact Hs|].
    intros h0 E. simpl. congruence.
  - (* entry create *)
    apply map_Forall_insert_2; [|exact Hs].
    match goal with H : entry_run_validation _ _ _ _ _ = inr ?d |- _ =>
      destruct (validated_entry_create _ _ _ _ H) as (hid & h & x & Hd & _);
      destruct (validated_entry_habit _ _ _ _ _ _ _ _ H Hd) as (_ & Hh & Hu & _)
    end.
    exists h. unfold entry_new. simpl. rewrite Hd. simpl. auto.
  - (* entry update *)
    apply map_Forall_insert_2; [|exact Hs].
    match goal with
    | Ht : entries s !! pk = Some ?t,
      Hc : (HabitEntry.user ?t =? req_user req) && _ = true,
      H : entry_run_validation _ _ _ _ _ = inr ?d |- _ =>
        apply andb_true_iff in Hc as [Hc _]; apply Nat.eqb_eq in Hc;
        unfold entry_apply; simpl; rewrite Hc;
        destruct (ed_habit d) as [[hid h]|] eqn:Hd;
        [ destruct (validated_entry_habit _ _ _ _ _ _ _ _ H Hd)
            as (_ & Hh & Hu & _); exists h; simpl; auto
        | simpl; destruct (Hs pk t Ht) as (h & Hh & Hu); exists h;
          rewrite Hh, Hu, Hc; auto ]
    end.
  - (* entry destroy *)
    apply map_Forall_delete. exact Hs.
Qed.

(** Witness: [db0] is consistent, so it stays so after an entry create. *)
Lemma X5_witness :
  entries_consistent (run alice (EntryCreate (EntryPayload (Some 1) (Some 101)
                                                (Some 30%Z) None)) db0).1.
Proof. apply X5_entries_consistent. exact db0_consistent. Defined.

(** ** Auto-increment keys and constraint errors *)

Lemma below_insert {A} (m : gmap nat A) n n' k x :
  (forall i, is_Some (m !! i) -> i < n) -> n <= n' -> k < n' ->
  forall i, is_Some (<[k := x]> m !! i) -> i < n'.
Proof.
  intros Hm Hn Hk i Hi. apply lookup_insert_is_Some in Hi as [<-|[_ Hi]];
    [exact Hk | specialize (Hm i Hi); lia].
Qed.

Lemma below_delete {A} (m : gmap nat A) n k :
  (forall i, is_Some (m !! i) -> i < n) ->
  forall i, is_Some (delete k m !! i) -> i < n.
Proof. intros Hm i Hi. apply lookup_delete_is_Some in Hi as [_ Hi]. auto. Qed.

Lemma below_filter (P : nat * HabitEntry.t -> Prop) `{!∀ x, Decision (P x)}
    (m : gmap nat HabitEntry.t) n :
  (forall i, is_Some (m !! i) -> i < n) ->
  forall i, is_Some (filter P m !! i) -> i < n.
Proof.
  intros Hm i [x Hi]. apply map_lookup_filter_Some in Hi as [Hi _].
  apply Hm. eauto.
Qed.

Lemma validated_create_free req s p d :
  entry_run_validation req s None false p = inr d ->
  entry_taken s None (HabitEntry.habit (entry_new req d))
    (HabitEntry.entry_date (entry_new req d)) = false.
Proof.
  intros E. destruct (validated_entry_create _ _ _ _ E) as (hid & h & x & Hd & Hx).
  apply entry_run_validation_inv in E as (_ & U & _).
  unfold unique_together in U. rewrite Hd, Hx in U. simpl in U.
  unfold entry_new. simpl. rewrite Hd, Hx. simpl.
  destruct (entry_taken s None hid x); [discriminate | reflexivity].
Qed.

Lemma validated_update_free req s pk e partial p d t :
  entry_run_validation req s (Some (pk, e)) partial p = inr d ->
  entry_taken s (Some pk) (HabitEntry.habit (entry_apply d t e))
    (HabitEntry.entry_date (entry_apply d t e)) = false.
Proof.
  intros E. apply entry_run_validation_inv in E as (_ & U & _).
  unfold unique_together in U. unfold entry_apply. simpl.
  destruct (ed_habit d) as [[hid h]|], (ed_entry_date d) as [x|]; simpl in *;
    destruct (entry_taken _ _ _ _); congruence.
Qed.

Lemma entry_create_check_inv req p s s' d :
  entry_create_check req p s = (s', inr d) ->
  s' = s /\ entry_run_validation req s None false p = inr d.
Proof.
  unfold entry_create_check, bind, get_db, liftV, raise, ret. cbv beta.
  destruct (entry_run_validation req s None false p); intros H;
    inversion H; auto.
Qed.

Lemma validated_create_key req s p d :
  entry_run_validation req s None false p = inr d ->
  ep_habit p = Some (HabitEntry.habit (entry_new req d))
  /\ ep_entry_date p = Some (HabitEntry.entry_date (entry_new req d)).
Proof.
  intros E. apply entry_run_validation_inv in E as (F & _).
  apply entry_fields_ok in F as (Hh & Hd & _).
  unfold entry_new. simpl.
  destruct (ep_habit p) as [hid|]; [|destruct Hh; discriminate].
  destruct (ep_entry_date p) as [x|]; [|destruct Hd; discriminate].
  destruct Hh as (h & -> & _). rewrite Hd. auto.
Qed.

(** X18: every request keeps both auto-increment counters above every key in
    use, and when requests run one after another none ends in a database
    constraint error (500): the primary key a create takes is always free,
    and the [unique_together] validation has already refused any
    (habit, entry_date) the write would duplicate. That validation is a read
    before the INSERT, not part of it: [entry_create] is its check step then
    its save step, and when two creates for the same (habit, entry_date)
    both pass the check on the same table before either saves, the first
    save stores its row (201) and the second fails on the unique index with
    an [IntegrityError], answered 500, leaving the first row in place. *)
Theorem X18_counters_and_unique_race :
  (forall req c s, counters_ok s -> counters_ok (run req c s).1)
  /\ (forall req c s, counters_ok s -> status (run req c s).2 <> 500)
  /\ (forall req p s,
        entry_create req p s
        = bind (entry_create_check req p) (entry_create_save req) s)
  /\ (forall req1 req2 p1 p2 s d1 d2,
        counters_ok s ->
        entry_create_check req1 p1 s = (s, inr d1) ->
        entry_create_check req2 p2 s = (s, inr d2) ->
        ep_habit p2 = ep_habit p1 -> ep_entry_date p2 = ep_entry_date p1 ->
        exists s1 id e,
          entry_create_save req1 d1 s = (s1, inr (Response 201 (BEntry id e)))
          /\ entries s1 !! id = Some e
          /\ entry_create_save req2 d2 s1 = (s1, inl IntegrityError)
          /\ error_response IntegrityError = Response 500 BNone).
Proof.
  split; [|split; [|split]].
  - intros req c s [Hh He]. destruct c; run_cases req s; try (split; assumption);
      split; simpl;
      first [ assumption
            | apply below_delete; assumption
            | apply below_filter; assumption
            | eapply below_insert; [eassumption | lia | lia]
            | eapply below_insert; [eassumption | lia |];
              match goal with H : _ !! ?k = Some _ |- ?k < _ =>
                first [apply Hh | apply He]; rewrite H; eauto end ].
  - intros req c s [Hh He]. destruct c; run_cases req s; try discriminate.
    + match goal with H : habits s !! next_habit_id s = Some _ |- _ =>
        assert (next_habit_id s < next_habit_id s) by (apply Hh; rewrite H; eauto);
        lia end.
    + match goal with H : entries s !! next_entry_id s = Some _ |- _ =>
        assert (next_entry_id s < next_entry_id s) by (apply He; rewrite H; eauto);
        lia end.
    + match goal with H : entry_run_validation _ _ _ _ _ = inr _ |- _ =>
        rewrite (validated_create_free _ _ _ _ H) in *; discriminate end.
    + match goal with H : entry_run_validation _ _ _ _ _ = inr _ |- _ =>
        pose proof (validated_update_free _ _ _ _ _ _ _ (now req) H) as F;
        simpl in *; congruence end.
  - intros req p s. unfold entry_create, entry_create_check, entry_create_save,
      bind, get_db, liftV, raise, ret. cbv beta.
    destruct (entry_run_validation req s None false p); reflexivity.
  - intros req1 req2 p1 p2 s d1 d2 [Hh He] C1 C2 Eh Ed.
    apply entry_create_check_inv in C1 as [_ V1].
    apply entry_create_check_inv in C2 as [_ V2].
    destruct (validated_create_key _ _ _ _ V1) as [K1 D1].
    destruct (validated_create_key _ _ _ _ V2) as [K2 D2].
    pose proof (validated_create_free _ _ _ _ V1) as F1.
    set (n := next_entry_id s).
    assert (N0 : entries s !! n = None).
    { destruct (entries s !! n) eqn:E; [|reflexivity].
      assert (n < n) by (apply He; rewrite E; eauto). lia. }
    assert (N1 : entries s !! S n = None).
    { destruct (entries s !! S n) eqn:E; [|reflexivity].
      assert (S n < n) by (apply He; rewrite E; eauto). lia. }
    exists (DB (habits s) (<[n := entry_new req1 d1]> (entries s))
               (next_habit_id s) (S n)), n, (entry_new req1 d1).
    unfold entry_create_save, db_insert_entry, bind, ret. cbv beta.
    fold n. rewrite N0, F1. split; [reflexivity|].
    split; [simpl; apply lookup_insert_eq|].
    split; [|reflexivity].
    assert (Ehab : HabitEntry.habit (entry_new req2 d2)
                   = HabitEntry.habit (entry_new req1 d1)) by congruence.
    assert (Edt : HabitEntry.entry_date (entry_new req2 d2)
                  = HabitEntry.entry_date (entry_new req1 d1)) by congruence.
    cbn [entries next_entry_id]. rewrite lookup_insert_ne by lia. rewrite N1.
    rewrite Ehab, Edt.
    rewrite (entry_taken_true _ None n (entry_new req1 d1)); [reflexivity| |
      reflexivity].
    simpl. apply lookup_insert_eq.
Qed.

(** Witness: the counters of [db0] are above its keys, so a habit create keeps
    them so and does not answer 500; and two creates of user 1's entry of
    habit 1 on day 101, value 30, both validated against [db0], end with the
    first stored and the second refused by the unique index. *)
Lemma X18_witness :
  counters_ok (run alice (HabitCreate (HabitPayload (Some "Walk") None None
                                         None None None None)) db0).1
  /\ status (run alice (HabitCreate (HabitPayload (Some "Walk") None None
                                       None None None None)) db0).2 <> 500
  /\ exists s1 id e,
       entry_create_save alice (EntryData (Some (1, read_book)) (Some 101)
                                  (Some 30%Z) None) db0
       = (s1, inr (Response 201 (BEntry id e)))
       /\ entries s1 !! id = Some e
       /\ entry_create_save alice (EntryData (Some (1, read_book)) (Some 101)
                                    (Some 30%Z) None) s1
          = (s1, inl IntegrityError)
       /\ error_response IntegrityError = Response 500 BNone.
Proof.
  split; [|split].
  - apply (proj1 X18_counters_and_unique_race). exact db0_counters.
  - apply (proj1 (proj2 X18_counters_and_unique_race)). exact db0_counters.
  - apply (proj2 (proj2 (proj2 X18_counters_and_unique_race))
             alice alice (EntryPayload (Some 1) (Some 101) (Some 30%Z) None)
             (EntryPayload (Some 1) (Some 101) (Some 30%Z) None) db0
             (EntryData (Some (1, read_book)) (Some 101) (Some 30%Z) None)
             (EntryData (Some (1, read_book)) (Some 101) (Some 30%Z) None)
             db0_counters);
      first [vm_compute; reflexivity | reflexivity].
Defined.

(** ** Which requests write *)

(** X16: a request answered with an error status (400, 404, 500) leaves the
    database exactly as it was: every handler validates and looks up before
    it writes, and a refused write changes nothing. *)
Theorem X16_failed_request_no_write :
  forall req c s, 300 <= status (run req c s).2 -> (run req c s).1 = s.
Proof.
  intros req c s. destruct c; run_cases req s; intros H;
    first [reflexivity | simpl in H; lia].
Qed.

(** Witness: user 1 asking for user 2's habit 3 gets 404 and [db0] stays. *)
Lemma X16_witness : (run alice (HabitRetrieve 3) db0).1 = db0.
Proof. apply X16_failed_request_no_write. vm_compute. lia. Defined.

(** X17: the GET routes (habit list and detail, entry list and detail, the
    export) never write to the database. *)
Theorem X17_reads_no_write :
  forall req c s, is_read_only c = true -> (run req c s).1 = s.
Proof.
  intros req c s H. destruct c; simpl in H; try discriminate;
    run_cases req s; reflexivity.
Qed.

(** Witness: user 1 asking for the CSV export (answered 404 by content
    negotiation) leaves [db0] as it is. *)
Lemma X17_witness : (run alice (ExportUserData (Some "csv")) db0).1 = db0.
Proof. apply X17_reads_no_write. reflexivity. Defined.

(** ** Deletes *)

(** X2: deleting one of the caller's entries (one that passes the query
    filters of the request) answers 204 and removes exactly that row; every
    other entry and every habit stays. *)
Theorem X2_entry_destroy_removes_one_row :
  forall req q pk s e,
    entries s !! pk = Some e -> HabitEntry.user e = req_user req ->
    entry_matches q e = true ->
    let r := run req (EntryDestroy q pk) s in
    status r.2 = 204 /\ entries r.1 !! pk = None
    /\ (forall j, j <> pk -> entries r.1 !! j = entries s !! j)
    /\ habits r.1 = habits s.
Proof.
  intros req q pk s e He Hu Hm r. unfold r. unfold_handlers.
  rewrite entry_get_object_eq, He, Hu, Nat.eqb_refl, Hm. unfold_prims. simpl.
  split; [reflexivity|]. split; [apply lookup_delete_eq|].
  split; [intros j Hj; apply lookup_delete_ne; congruence | reflexivity].
Qed.

(** Witness: user 1 deletes entry 1 of [db0]. *)
Lemma X2_witness :
  status (run alice (EntryDestroy no_query 1) db0).2 = 204
  /\ entries (run alice (EntryDestroy no_query 1) db0).1 !! 2 = Some run_1.
Proof.
  pose proof (X2_entry_destroy_removes_one_row alice no_query 1 db0 read_45)
    as H.
  destruct H as (Hs & _ & Ho & _); [reflexivity | reflexivity | reflexivity |].
  split; [exact Hs | rewrite Ho; [reflexivity | lia]].
Defined.

(** X13: deleting one of the caller's habits answers 204, removes it, keeps
    every other habit, and removes exactly the entries of that habit (the
    cascade), whoever owns them. *)
Theorem X13_habit_destroy_cascade :
  forall req pk s h,
    habits s !! pk = Some h -> Habit.user h = req_user req ->
    let r := run req (HabitDestroy pk) s in
    status r.2 = 204 /\ habits r.1 !! pk = None
    /\ (forall j, j <> pk -> habits r.1 !! j = habits s !! j)
    /\ (forall i e, entries r.1 !! i = Some e <->
                    entries s !! i = Some e /\ HabitEntry.habit e <> pk).
Proof.
  intros req pk s h Hh Hu r. unfold r. unfold_handlers.
  rewrite habit_get_object_eq, Hh, Hu, Nat.eqb_refl. unfold_prims. simpl.
  split; [reflexivity|]. split; [apply lookup_delete_eq|].
  split; [intros j Hj; apply lookup_delete_ne; congruence|].
  intros i e. apply map_lookup_filter_Some.
Qed.

(** Witness: user 1 deletes habit 1 ("Read Book") of [db0]. *)
Lemma X13_witness :
  status (run alice (HabitDestroy 1) db0).2 = 204
  /\ habits (run alice (HabitDestroy 1) db0).1 !! 3 = Some run_b.
Proof.
  pose proof (X13_habit_destroy_cascade alice 1 db0 read_book) as H.
  destruct H as (Hs & _ & Ho & _); [reflexivity | reflexivity |].
  split; [exact Hs | rewrite Ho; [reflexivity | lia]].
Defined.

(** ** Detail reads *)

(** X6: the habit detail route returns any of the caller's habits, active or
    archived, as stored; the entry detail route returns one of the caller's
    entries when it passes the query filters of the request and answers 404
    otherwise. Neither writes. *)
Theorem X6_detail_reads :
  (forall req s pk h,
     habits s !! pk = Some h -> Habit.user h = req_user req ->
     run req (HabitRetrieve pk) s = (s, Response 200 (BHabit pk h)))
  /\ (forall req q s pk e,
     entries s !! pk = Some e -> HabitEntry.user e = req_user req ->
     run req (EntryRetrieve q pk) s =
       (s, if entry_matches q e then Response 200 (BEntry pk e)
           else error_response NotFound)).
Proof.
  split.
  - intros req s pk h Hh Hu. unfold_handlers.
    rewrite habit_get_object_eq, Hh, Hu, Nat.eqb_refl. reflexivity.
  - intros req q s pk e He Hu. unfold_handlers.
    rewrite entry_get_object_eq, He, Hu, Nat.eqb_refl. simpl.
    destruct (entry_matches q e); reflexivity.
Qed.

(** Witness: user 1 reads the archived habit 2, and reads entry 1 with a
    [date] filter it does not pass. *)
Lemma X6_witness :
  run alice (HabitRetrieve 2) db0 = (db0, Response 200 (BHabit 2 old_project))
  /\ run alice (EntryRetrieve (EntryQuery None None None (Some 99)) 1) db0
     = (db0, error_response NotFound).
Proof.
  split.
  - apply (proj1 X6_detail_reads alice db0 2 old_project); reflexivity.
  - rewrite (proj2 X6_detail_reads alice (EntryQuery None None None (Some 99))
               db0 1 read_45) by reflexivity.
    reflexivity.
Defined.

(** ** Archive then unarchive *)

(** X7: archiving an active habit of the caller stores it with [archived_at]
    and [updated_at] set to the request time; unarchiving it afterwards (by
    the same user) gives back the habit as it was before the archive, apart
    from [updated_at]. Entries are untouched. *)
Theorem X7_archive_then_unarchive :
  forall req1 req2 s pk h,
    habits s !! pk = Some h -> Habit.user h = req_user req1 ->
    req_user req2 = req_user req1 -> Habit.archived_at h = None ->
    let h1 := set_archived_at (Some (now req1)) (now req1) h in
    let h2 := set_archived_at None (now req2) h in
    let r1 := run req1 (HabitArchive pk) s in
    r1 = (set_habits (<[pk := h1]> (habits s)) s, Response 200 (BHabit pk h1))
    /\ run req2 (HabitUnarchive pk) r1.1 =
         (set_habits (<[pk := h2]> (habits s)) s, Response 200 (BHabit pk h2)).
Proof.
  intros req1 req2 s pk h Hh Hu Hr Ha h1 h2 r1.
  assert (E1 : r1 = (set_habits (<[pk := h1]> (habits s)) s,
                     Response 200 (BHabit pk h1))).
  { unfold r1. unfold_handlers.
    rewrite habit_get_object_eq, Hh, Hu, Nat.eqb_refl. simpl. rewrite Ha.
    reflexivity. }
  split; [exact E1|]. rewrite E1. simpl. unfold_handlers.
  rewrite habit_get_object_eq. simpl. rewrite lookup_insert_eq. simpl.
  rewrite Hu, Hr, Nat.eqb_refl. simpl. unfold set_habits. simpl.
  rewrite insert_insert_eq. reflexivity.
Qed.

(** Witness: user 1 archives "Read Book" at time 50 and unarchives it at
    time 60. *)
Lemma X7_witness :
  (run (Request 1 60) (HabitUnarchive 1) (run alice (HabitArchive 1) db0).1).2
  = Response 200 (BHabit 1 (set_archived_at None 60 read_book)).
Proof.
  pose proof (X7_archive_then_unarchive alice (Request 1 60) db0 1 read_book)
    as H.
  destruct H as [_ E]; [reflexivity | reflexivity | reflexivity | reflexivity |].
  rewrite E. reflexivity.
Defined.

(** ** Creates *)

(** X3: a habit create whose payload validates stores one new habit under
    the next key and answers 201 with it: the owner is the caller, both
    timestamps are the request time, the name is the submitted one trimmed,
    [type] defaults to singular, and [archived_at] is whatever the payload
    gives (a writable field), null when absent. Entries are untouched. *)
Theorem X3_habit_create :
  forall req p s d,
    counters_ok s -> habit_to_internal_value false p = inr d ->
    exists h,
      run req (HabitCreate p) s =
        (DB (<[next_habit_id s := h]> (habits s)) (entries s)
            (S (next_habit_id s)) (next_entry_id s),
         Response 201 (BHabit (next_habit_id s) h))
      /\ Habit.user h = req_user req
      /\ Habit.created_at h = now req /\ Habit.updated_at h = now req
      /\ (exists raw, p_name p = Some raw /\ Habit.name h = py_strip raw)
      /\ (p_type p = None -> Habit.type h = SINGULAR)
      /\ Habit.archived_at h = upd (p_archived_at p) None.
Proof.
  intros req p s d [Hc _] Hv.
  exists (habit_new (req_user req) (now req) d).
  destruct (habit_fields_ok _ _ _ Hv) as (Hn & _ & Ht & Ha & _).
  split.
  - unfold_handlers. unfold_prims. rewrite Hv. simpl.
    destruct (habits s !! next_habit_id s) eqn:E; [|reflexivity].
    exfalso. assert (next_habit_id s < next_habit_id s); [|lia].
    apply Hc. rewrite E. eauto.
  - unfold habit_new. simpl. do 3 (split; [reflexivity|]). split.
    + destruct (p_name p) as [raw|]; [|destruct Hn; discriminate].
      exists raw. rewrite Hn. auto.
    + split; [intros Hp; rewrite (Ht Hp); reflexivity|].
      destruct (p_archived_at p); rewrite Ha; reflexivity.
Qed.

(** Witness: user 1 creates "  Walk " in [db0]; it is stored as "Walk"
    under key 4. *)
Lemma X3_witness :
  exists h, (run alice (HabitCreate (HabitPayload (Some "  Walk ") None None None
                                       None None None)) db0).2
            = Response 201 (BHabit 4 h)
         /\ Habit.user h = 1 /\ Habit.name h = "Walk".
Proof.
  assert (Hv : habit_to_internal_value false
                 (HabitPayload (Some "  Walk ") None None None None None None)
               = inr (HabitData (Some "Walk") None None None None None None))
    by (vm_compute; reflexivity).
  destruct (X3_habit_create alice _ db0 _ db0_counters Hv)
    as (h & E & Hu & _ & _ & (raw & Hr & Hn) & _).
  exists h. rewrite E. split; [reflexivity|]. split; [exact Hu|].
  injection Hr as <-. rewrite Hn. vm_compute. reflexivity.
Defined.

(** X4: an entry create whose payload validates stores one new entry under
    the next key and answers 201 with it: the owner is the caller, the habit
    and date are the submitted ones, the habit is an active habit of the
    caller, the value defaults to 1 and obeys the habit type's rule (1 for a
    singular habit, above 0 for a timed one), and [created_at] is the request
    time. Habits are untouched. *)
Theorem X4_entry_create :
  forall req p s d,
    counters_ok s -> entry_run_validation req s None false p = inr d ->
    exists e h,
      run req (EntryCreate p) s =
        (DB (habits s) (<[next_entry_id s := e]> (entries s))
            (next_habit_id s) (S (next_entry_id s)),
         Response 201 (BEntry (next_entry_id s) e))
      /\ HabitEntry.user e = req_user req
      /\ ep_habit p = Some (HabitEntry.habit e)
      /\ ep_entry_date p = Some (HabitEntry.entry_date e)
      /\ habits s !! HabitEntry.habit e = Some h
      /\ Habit.user h = req_user req /\ Habit.archived_at h = None
      /\ (ep_value p = None -> HabitEntry.value e = 1%Z)
      /\ (Habit.type h = SINGULAR -> HabitEntry.value e = 1%Z)
      /\ (Habit.type h = TIMED -> (0 < HabitEntry.value e)%Z)
      /\ HabitEntry.created_at e = now req.
Proof.
  intros req p s d [_ Hc] Hv.
  destruct (validated_entry_create _ _ _ _ Hv) as (hid & h & x & Hd & Hx).
  destruct (validated_entry_habit _ _ _ _ _ _ _ _ Hv Hd) as (Hp & Hh & Hu & Ha).
  pose proof (validated_create_free _ _ _ _ Hv) as Hfree.
  pose proof (entry_run_validation_inv _ _ _ _ _ _ Hv) as (F & _ & V).
  apply entry_fields_ok in F as (_ & Hdate & Hval & _).
  exists (entry_new req d), h. split.
  - unfold_handlers. unfold get_db, liftV, ret. rewrite Hv. unfold db_insert_entry.
    destruct (entries s !! next_entry_id s) eqn:E.
    + exfalso. assert (next_entry_id s < next_entry_id s); [|lia].
      apply Hc. rewrite E. eauto.
    + rewrite Hfree. reflexivity.
  - unfold entry_new. simpl. rewrite Hd, Hx. simpl.
    split; [reflexivity|]. split; [exact Hp|].
    split; [destruct (ep_entry_date p); [congruence | destruct Hdate; discriminate]|].
    do 3 (split; [assumption|]).
    unfold entry_validate in V. rewrite Hd in V.
    destruct (ep_value p) as [v|].
    + destruct Hval as [Hv' _]. rewrite Hv' in V |- *. simpl.
      split; [discriminate|].
      destruct (Habit.type h).
      * destruct (v =? 1)%Z eqn:E1; simpl in V; [|discriminate].
        apply Z.eqb_eq in E1. split; [auto|split; [discriminate|reflexivity]].
      * destruct (v <=? 0)%Z eqn:E1; [discriminate|].
        apply Z.leb_gt in E1. split; [discriminate|split; [auto|reflexivity]].
    + rewrite Hval. simpl. split; [reflexivity|].
      split; [reflexivity|]. split; [intros _; lia | reflexivity].
Qed.

(** Witness: user 1 logs 30 minutes of "Read Book" on day 101 in [db0]. *)
Lemma X4_witness :
  exists e, (run alice (EntryCreate (EntryPayload (Some 1) (Some 101)
                                       (Some 30%Z) None)) db0).2
            = Response 201 (BEntry 3 e)
         /\ HabitEntry.user e = 1.
Proof.
  assert (Hv : entry_run_validation alice db0 None false
                 (EntryPayload (Some 1) (Some 101) (Some 30%Z) None)
               = inr (EntryData (Some (1, read_book)) (Some 101) (Some 30%Z) None))
    by (vm_compute; reflexivity).
  destruct (X4_entry_create alice _ db0 _ db0_counters Hv)
    as (e & h & E & Hu & _).
  exists e. rewrite E. split; [reflexivity | exact Hu].
Defined.

(** ** Updates *)

(** X8: a habit update (PUT or PATCH) either fails and writes nothing, or
    rewrites one of the caller's habits in place: the owner and [created_at]
    never change, [updated_at] becomes the request time, a submitted name is
    stored trimmed, and every field absent from the payload keeps its value. *)
Theorem X8_habit_update_effect :
  forall req pk partial p s,
    let r := run req (HabitUpdate pk partial p) s in
    r.1 = s
    \/ exists h h',
         habits s !! pk = Some h /\ Habit.user h = req_user req
         /\ r = (set_habits (<[pk := h']> (habits s)) s,
                 Response 200 (BHabit pk h'))
         /\ Habit.user h' = Habit.user h
         /\ Habit.created_at h' = Habit.created_at h
         /\ Habit.updated_at h' = now req
         /\ Habit.name h' = upd (option_map py_strip (p_name p)) (Habit.name h)
         /\ (p_description p = None -> Habit.description h' = Habit.description h)
         /\ (p_type p = None -> Habit.type h' = Habit.type h)
         /\ Habit.archived_at h' = upd (p_archived_at p) (Habit.archived_at h)
         /\ (p_color p = None -> Habit.color h' = Habit.color h)
         /\ (p_goal_value p = None -> Habit.goal_value h' = Habit.goal_value h)
         /\ (p_goal_unit p = None -> Habit.goal_unit h' = Habit.goal_unit h).
Proof.
  intros req pk partial p s r. unfold r. unfold_handlers.
  rewrite habit_get_object_eq.
  destruct (habits s !! pk) as [h|] eqn:Hh; [|left; reflexivity].
  destruct (Habit.user h =? req_user req) eqn:Hu; [|left; reflexivity].
  unfold liftV, raise, ret. simpl.
  destruct (habit_to_internal_value partial p) as [es|d] eqn:Hv;
    [left; reflexivity|].
  right. exists h, (habit_apply d (now req) h).
  destruct (habit_fields_ok _ _ _ Hv)
    as (Hn & Hds & Ht & Ha & Hc & Hg & Hgu).
  apply Nat.eqb_eq in Hu.
  do 3 (split; [auto|]). unfold habit_apply. simpl.
  do 3 (split; [reflexivity|]).
  split; [destruct (p_name p); [rewrite Hn | destruct Hn as [-> _]]; reflexivity|].
  split; [intros Hp; rewrite (Hds Hp); reflexivity|].
  split; [intros Hp; rewrite (Ht Hp); reflexivity|].
  split; [destruct (p_archived_at p); rewrite Ha; reflexivity|].
  split; [intros Hp; rewrite (Hc Hp); reflexivity|].
  split; [intros Hp; rewrite (Hg Hp); reflexivity|].
  intros Hp; rewrite (Hgu Hp); reflexivity.
Qed.

(** X9: an entry update (PUT or PATCH) either fails and writes nothing, or
    rewrites one of the caller's entries in place: the owner and
    [created_at] never change, [updated_at] becomes the request time, the
    habit, date and value are the submitted ones or else the old ones, and a
    submitted habit is always an active habit of the caller. *)
Theorem X9_entry_update_effect :
  forall req q pk partial p s,
    let r := run req (EntryUpdate q pk partial p) s in
    r.1 = s
    \/ exists e e',
         entries s !! pk = Some e /\ HabitEntry.user e = req_user req
         /\ r = (set_entries (<[pk := e']> (entries s)) s,
                 Response 200 (BEntry pk e'))
         /\ HabitEntry.user e' = HabitEntry.user e
         /\ HabitEntry.created_at e' = HabitEntry.created_at e
         /\ HabitEntry.updated_at e' = now req
         /\ HabitEntry.habit e' = upd (ep_habit p) (HabitEntry.habit e)
         /\ (forall hid, ep_habit p = Some hid ->
               exists h, habits s !! hid = Some h /\ Habit.user h = req_user req
                         /\ Habit.archived_at h = None)
         /\ HabitEntry.entry_date e' = upd (ep_entry_date p) (HabitEntry.entry_date e)
         /\ HabitEntry.value e' = upd (ep_value p) (HabitEntry.value e)
         /\ (ep_notes p = None -> HabitEntry.notes e' = HabitEntry.notes e).
Proof.
  intros req q pk partial p s r. unfold r. unfold_handlers.
  rewrite entry_get_object_eq.
  destruct (entries s !! pk) as [e|] eqn:He; [|left; reflexivity].
  destruct ((HabitEntry.user e =? req_user req) && entry_matches q e) eqn:Hu;
    [|left; reflexivity].
  apply andb_true_iff in Hu as [Hu _]. apply Nat.eqb_eq in Hu.
  unfold get_db, liftV, raise, ret. simpl.
  destruct (entry_run_validation req s (Some (pk, e)) partial p) as [es|d] eqn:Hv;
    [left; reflexivity|].
  unfold db_save_entry.
  rewrite (validated_update_free _ _ _ _ _ _ _ (now req) Hv).
  right. exists e, (entry_apply d (now req) e).
  pose proof (entry_run_validation_inv _ _ _ _ _ _ Hv) as (F & _).
  apply entry_fields_ok in F as (Hh & Hd & Hval & Hn).
  do 3 (split; [auto|]). unfold entry_apply. simpl.
  do 3 (split; [reflexivity|]).
  split; [destruct (ep_habit p) as [hid|];
          [destruct Hh as (h & -> & _) | destruct Hh as [-> _]]; reflexivity|].
  split; [intros hid Hp; rewrite Hp in Hh; destruct Hh as (h & _ & ?); eauto|].
  split; [destruct (ep_entry_date p); [rewrite Hd | destruct Hd as [-> _]];
          reflexivity|].
  split; [destruct (ep_value p); [destruct Hval as [-> _] | rewrite Hval];
          reflexivity|].
  intros Hp. rewrite (Hn Hp). reflexivity.
Qed.

(** X10: an entry update that would give one of the caller's entries the
    (habit, entry_date) of another entry, taking the habit and the date from
    the payload or else from the entry, is refused with a validation error
    (400), PUT or PATCH alike, and writes nothing. *)
Theorem X10_entry_update_duplicate_refused :
  forall req q pk partial p s e j e2,
    entries s !! pk = Some e -> HabitEntry.user e = req_user req ->
    entry_matches q e = true ->
    entries s !! j = Some e2 -> j <> pk ->
    HabitEntry.habit e2 = upd (ep_habit p) (HabitEntry.habit e) ->
    HabitEntry.entry_date e2 = upd (ep_entry_date p) (HabitEntry.entry_date e) ->
    exists errs,
      run req (EntryUpdate q pk partial p) s = (s, Response 400 (BErrors errs)).
Proof.
  intros req q pk partial p s e j e2 He Hu Hm Hj Hne H2h H2d.
  unfold_handlers. rewrite entry_get_object_eq, He, Hu, Nat.eqb_refl, Hm.
  unfold get_db, liftV, raise, ret. simpl.
  destruct (entry_run_validation req s (Some (pk, e)) partial p) as [es|d] eqn:Hv;
    [eexists; reflexivity|].
  exfalso.
  pose proof (entry_run_validation_inv _ _ _ _ _ _ Hv) as (F & U & _).
  apply entry_fields_ok in F as (Hh & Hd & _).
  assert (Hself : is_self (Some pk) j = false) by (apply Nat.eqb_neq; congruence).
  pose proof (entry_taken_true s (Some pk) j e2 Hj Hself) as T.
  unfold unique_together in U.
  destruct (ep_habit p) as [hid|];
    [destruct Hh as (h & Eh & _) | destruct Hh as [Eh _]]; rewrite Eh in U;
  (destruct (ep_entry_date p) as [x|];
    [rewrite Hd in U | destruct Hd as [Ed _]; rewrite Ed in U]);
  simpl in U, H2h, H2d; rewrite <- H2h, <- H2d, T in U; discriminate.
Qed.

(** Witness: in [db1], user 1 moves entry 3 ("Read Book", day 101) to day
    100, which entry 1 already has. *)
Lemma X10_witness :
  exists errs,
    run alice (EntryUpdate no_query 3 true (EntryPayload None (Some 100) None None))
        db1 = (db1, Response 400 (BErrors errs)).
Proof.
  apply (X10_entry_update_duplicate_refused alice no_query 3 true _ db1 read_30
           1 read_45); try reflexivity; lia.
Defined.

(** ** Field bounds *)

Lemma field_msgs_self key m : field_msgs key [(key, m)] = [m].
Proof. unfold field_msgs. simpl. rewrite String.eqb_refl. reflexivity. Qed.

Ltac other_keys k :=
  repeat match goal with
  | E : field_check ?ki ?r ?v ?f = (?e, _) |- _ =>
      let H := fresh "Hk" in
      assert (H : field_msgs k e = [])
        by (let H' := fresh in
            pose proof (field_check_other_key ki k r v f) as H';
            rewrite E in H'; apply H'; discriminate);
      clear E
  end.

Lemma error_list_result {A} (l : error_dict) (ok : A) key :
  field_msgs key l <> [] ->
  exists es, match l with [] => inr ok | x :: l' => inl (x :: l') end = inl es
             /\ field_msgs key es <> [].
Proof. intros H. destruct l; [contradiction | eexists; split; [reflexivity | exact H]]. Qed.

Ltac bad_key k :=
  cbv beta iota;
  repeat match goal with
  | |- context [let '(_, _) := ?x in _] =>
      let E := fresh "E" in destruct x eqn:E
  end;
  other_keys k; apply error_list_result; rewrite !field_msgs_app;
  repeat match goal with H : field_msgs k _ = [] |- _ => rewrite H end;
  rewrite field_msgs_self; simpl; discriminate.

Lemma char_field_opt_long n c :
  n < String.length (py_strip c) -> char_field_opt n (Some c) = inl msg_max_length.
Proof.
  intros Hl. unfold char_field_opt. cbv zeta.
  apply Nat.ltb_lt in Hl. rewrite Hl. reflexivity.
Qed.

(** A payload with a field the field itself refuses never validates, and
    the error dictionary has a message under that key. *)
Lemma habit_validation_bad_field partial p k :
  bad_habit_field p k ->
  exists es, habit_to_internal_value partial p = inl es /\ field_msgs k es <> [].
Proof.
  intros Hb. unfold habit_to_internal_value.
  destruct Hb as [(-> & t & Hp & H1 & H2) | [(-> & c & Hp & Hl)
                 | [(-> & v & Hp & Hv) | (-> & u & Hp & Hl)]]];
    rewrite Hp; cbn [field_check].
  - assert (type_field t = inl msg_invalid_choice) as ->.
    { unfold type_field. apply String.eqb_neq in H1, H2. rewrite H1, H2.
      reflexivity. }
    bad_key "type".
  - rewrite (char_field_opt_long 7 c Hl). bad_key "color".
  - assert (exists m, goal_value_field (Some v) = inl m) as [m ->].
    { unfold goal_value_field, positive_integer_field.
      destruct (v <? 0)%Z eqn:L; [eauto|].
      destruct (2147483647 <? v)%Z eqn:G; [eauto|].
      apply Z.ltb_ge in L, G. lia. }
    bad_key "goal_value".
  - rewrite (char_field_opt_long 10 u Hl). bad_key "goal_unit".
Qed.

(** X11: a habit create, or an update (PUT or PATCH) of one of the caller's
    habits, whose payload has a [type] outside the choices, a [color] over 7
    or a [goal_unit] over 10 characters once trimmed, or a [goal_value]
    outside [0, 2147483647], is refused with a validation error under that
    key and writes nothing. *)
Theorem X11_habit_field_bounds :
  forall req s p k,
    bad_habit_field p k ->
    (exists errs, run req (HabitCreate p) s = (s, Response 400 (BErrors errs))
                  /\ field_msgs k errs <> [])
    /\ (forall pk partial h,
          habits s !! pk = Some h -> Habit.user h = req_user req ->
          exists errs,
            run req (HabitUpdate pk partial p) s = (s, Response 400 (BErrors errs))
            /\ field_msgs k errs <> []).
Proof.
  intros req s p k Hb. split.
  - destruct (habit_validation_bad_field false p k Hb) as (es & E & Hm).
    exists es. split; [|exact Hm].
    unfold_handlers. unfold liftV. rewrite E. reflexivity.
  - intros pk partial h Hh Hu.
    destruct (habit_validation_bad_field partial p k Hb) as (es & E & Hm).
    exists es. split; [|exact Hm].
    unfold_handlers. rewrite habit_get_object_eq, Hh, Hu, Nat.eqb_refl.
    unfold liftV. simpl. rewrite E. reflexivity.
Qed.

(** Witness: user 1 sends a 9-character color, on a create and on a PATCH
    of habit 1. *)
Lemma X11_witness :
  let p := HabitPayload (Some "Walk") None None None (Some (Some "#12345678"))
             None None in
  (exists errs, run alice (HabitCreate p) db0 = (db0, Response 400 (BErrors errs))
                /\ field_msgs "color" errs <> [])
  /\ (exists errs,
        run alice (HabitUpdate 1 true p) db0 = (db0, Response 400 (BErrors errs))
        /\ field_msgs "color" errs <> []).
Proof.
  intros p.
  assert (Hb : bad_habit_field p "color").
  { right. left. split; [reflexivity|]. exists "#12345678".
    split; [reflexivity | vm_compute; lia]. }
  split; [apply (proj1 (X11_habit_field_bounds alice db0 p "color" Hb))
         | apply (proj2 (X11_habit_field_bounds alice db0 p "color" Hb)
                    1 true read_book)]; reflexivity.
Defined.

(** A present [value] outside the bounds of the field fails the entry
    validation with a message under [value]. *)
Lemma entry_validation_bad_value req s inst partial p v :
  ep_value p = Some v -> (v < 0 \/ 2147483647 < v)%Z ->
  exists es, entry_run_validation req s inst partial p = inl es
             /\ field_msgs "value" es <> [].
Proof.
  intros Hp Hv. unfold entry_run_validation, entry_fields.
  rewrite Hp. cbn [field_check].
  assert (exists m, positive_integer_field v = inl m) as [m ->].
  { unfold positive_integer_field.
    destruct (v <? 0)%Z eqn:L; [eauto|].
    destruct (2147483647 <? v)%Z eqn:G; [eauto|].
    apply Z.ltb_ge in L, G. lia. }
  cbv beta iota.
  repeat match goal with
  | |- context [let '(_, _) := ?x in _] =>
      let E := fresh "E" in destruct x eqn:E
  end.
  other_keys "value".
  match goal with
  | |- context [match ?l with [] => _ | _ :: _ => _ end] =>
      assert (Hne : field_msgs "value" l <> []);
      [ rewrite !field_msgs_app;
        repeat match goal with H : field_msgs "value" _ = [] |- _ => rewrite H end;
        rewrite field_msgs_self; simpl; discriminate
      | destruct l as [|x l'] eqn:El; [contradiction | eexists; split; [reflexivity | exact Hne]] ]
  end.
Qed.

(** X12: an entry create, or an update (PUT or PATCH) of one of the caller's
    entries, with a [value] below 0 or above 2147483647 is refused with a
    validation error under [value] and writes nothing. *)
Theorem X12_entry_value_bounds :
  forall req s p v,
    ep_value p = Some v -> (v < 0 \/ 2147483647 < v)%Z ->
    (exists errs, run req (EntryCreate p) s = (s, Response 400 (BErrors errs))
                  /\ field_msgs "value" errs <> [])
    /\ (forall q pk partial e,
          entries s !! pk = Some e -> HabitEntry.user e = req_user req ->
          entry_matches q e = true ->
          exists errs,
            run req (EntryUpdate q pk partial p) s
              = (s, Response 400 (BErrors errs))
            /\ field_msgs "value" errs <> []).
Proof.
  intros req s p v Hp Hv. split.
  - destruct (entry_validation_bad_value req s None false p v Hp Hv)
      as (es & E & Hm).
    exists es. split; [apply entry_create_validation_error, E | exact Hm].
  - intros q pk partial e He Hu Hq.
    destruct (entry_validation_bad_value req s (Some (pk, e)) partial p v Hp Hv)
      as (es & E & Hm).
    exists es. split; [|exact Hm].
    unfold_handlers. rewrite entry_get_object_eq, He, Hu, Nat.eqb_refl, Hq.
    unfold get_db, liftV. simpl. rewrite E. reflexivity.
Qed.

(** Witness: user 1 sends [value = -1], on a create and on a PATCH of
    entry 1. *)
Lemma X12_witness :
  let p := EntryPayload (Some 1) (Some 101) (Some (-1)%Z) None in
  (exists errs, run alice (EntryCreate p) db0 = (db0, Response 400 (BErrors errs))
                /\ field_msgs "value" errs <> [])
  /\ (exists errs,
        run alice (EntryUpdate no_query 1 true p) db0
          = (db0, Response 400 (BErrors errs))
        /\ field_msgs "value" errs <> []).
Proof.
  intros p.
  assert (Hv : ep_value p = Some (-1)%Z) by reflexivity.
  split; [apply (proj1 (X12_entry_value_bounds alice db0 p (-1)%Z Hv
                          (or_introl eq_refl)))
         | apply (proj2 (X12_entry_value_bounds alice db0 p (-1)%Z Hv
                          (or_introl eq_refl)) no_query 1 true read_45)];
    reflexivity.
Defined.

(** ** Export contents *)

Lemma length_filter_split {A} (f : A -> bool) (l : list A) :
  List.length (List.filter (fun x => negb (f x)) l)
  + List.length (List.filter f l) = List.length l.
Proof. induction l as [|x l IH]; simpl; [reflexivity|]. destruct (f x); simpl; lia. Qed.

Lemma NoDup_sorted_filter {A} (R : relation (nat * A)) `{!RelDecision R}
    (f : nat * A -> bool) (m : gmap nat A) :
  NoDup (merge_sort R (List.filter f (map_to_list m))).
Proof.
  rewrite NoDup_ListNoDup.
  eapply Stdlib.Sorting.Permutation.Permutation_NoDup;
    [symmetry; apply merge_sort_Permutation|].
  apply List.NoDup_filter, NoDup_ListNoDup, NoDup_map_to_list.
Qed.

(** X14: the JSON export ([format=json], the one value for which both
    content negotiation and the view let the export through) answers 200
    without writing; it holds all of the caller's habits, active and
    archived, each once, sorted by [created_at], and all of the caller's
    entries, each once, sorted by [entry_date]; in its summary the active
    and archived counts add up to the habit total. *)
Theorem X14_export_contents :
  forall req s,
    exists hs es,
      run req (ExportUserData (Some "json")) s
        = (s, Response 200 (BExport "json" hs es))
      /\ Sorted by_created hs /\ NoDup hs
      /\ (forall x, In x hs <->
            habits s !! x.1 = Some x.2 /\ Habit.user x.2 = req_user req)
      /\ Sorted by_date es /\ NoDup es
      /\ (forall x, In x es <->
            entries s !! x.1 = Some x.2 /\ HabitEntry.user x.2 = req_user req)
      /\ active_habits (summary_of hs es) + archived_habits (summary_of hs es)
         = total_habits (summary_of hs es).
Proof.
  intros req s. unfold_handlers. simpl.
  eexists _, _. split; [reflexivity|].
  split; [apply Sorted_merge_sort; exact by_created_total|].
  split; [apply NoDup_sorted_filter|].
  split; [intros x; rewrite in_merge_sort, filter_In, in_map_to_list, Nat.eqb_eq;
          tauto|].
  split; [apply Sorted_merge_sort; exact by_date_total|].
  split; [apply NoDup_sorted_filter|].
  split; [intros x; rewrite in_merge_sort, filter_In, in_map_to_list, Nat.eqb_eq;
          tauto|].
  apply (length_filter_split (fun ih : nat * Habit.t => is_archived ih.2)).
Qed.

(** Witness: user 1 exports [db0] as JSON. *)
Lemma X14_witness :
  exists hs es,
    run alice (ExportUserData (Some "json")) db0
      = (db0, Response 200 (BExport "json" hs es))
    /\ (forall x, In x hs <-> habits db0 !! x.1 = Some x.2 /\ Habit.user x.2 = 1).
Proof.
  destruct (X14_export_contents alice db0) as (hs & es & E & _ & _ & Hin & _).
  exists hs, es. split; [exact E | exact Hin].
Defined.

(** X15: in a database where every entry points at a habit of its owner
    (which every request keeps, see X5), each entry of an export refers to a
    habit that is in the same export. *)
Theorem X15_export_entries_have_habits :
  forall req f s fmt hs es,
    entries_consistent s ->
    (run req (ExportUserData f) s).2 = Response 200 (BExport fmt hs es) ->
    forall x, In x es -> exists h, In (HabitEntry.habit x.2, h) hs.
Proof.
  intros req f s fmt hs es Hs Hr x Hx. revert Hr. unfold_handlers.
  destruct (no_renderer_for f); [discriminate|].
  destruct (py_in (py_lower (upd f "")) ["csv"; "json"]); simpl;
    [|discriminate].
  intros [= _ <- <-].
  rewrite in_merge_sort, filter_In, in_map_to_list, Nat.eqb_eq in Hx.
  destruct Hx as [Hx Hu].
  destruct (Hs x.1 x.2 Hx) as (h & Hh & Hhu).
  exists h. rewrite in_merge_sort, filter_In, in_map_to_list, Nat.eqb_eq.
  simpl. split; [exact Hh | congruence].
Qed.

(** Witness: the JSON export of [db0] by user 1; its entry 1 refers to
    habit 1, which the export holds. *)
Lemma X15_witness :
  exists h, In (HabitEntry.habit read_45, h) [(2, old_project); (1, read_book)].
Proof.
  apply (X15_export_entries_have_habits alice (Some "json") db0 "json"
           [(2, old_project); (1, read_book)] [(1, read_45)] db0_consistent
           ltac:(vm_compute; reflexivity) (1, read_45)).
  simpl. auto.
Defined.
